(** * Budget_tracker.py: the [BudgetTracker] ledger, embedded and verified

    The class [BudgetTracker] of [src/Budget_tracker.py] keeps a running
    balance, a history of transactions and a list of recurring rules.  Its
    methods are translated one by one into a small state monad whose state
    holds the object ([self]), everything the method shows or notifies, and
    the wall clock read by [datetime.datetime.now()].

    Numbers.  Amounts and balances are Python floats in the source; they are
    modelled by exact rationals ([Q]).  Every finite float is a rational and
    the comparisons against the thresholds are the same on both, but [+=]
    and [-=] are modelled without the rounding of floats.  The statements
    below therefore relate sums only when they are taken by the same
    sequence of additions (the balance and the left-to-right running total
    of the history), and use no law of exact arithmetic such as
    associativity.

    Strings.  Python [str] values are modelled by [string]; [str.lower] and
    [str.capitalize] act on the ASCII letters, which is all that the two
    words compared against (["income"], ["expense"]) can be produced from. *)

From Stdlib Require Import ZArith QArith Qround Qabs List String Ascii Bool.
From Stdlib Require Import Lia DecimalString.
Import ListNotations.

Local Open Scope Z_scope.

(* ------------------------------------------------------------------ *)
(** ** Python built-ins used by the class *)

Module Py.

(** [c.lower()] on one character. *)
Definition ascii_lower (c : ascii) : ascii :=
  let n := nat_of_ascii c in
  if (Nat.leb 65 n && Nat.leb n 90)%bool then ascii_of_nat (n + 32) else c.

(** [c.upper()] on one character. *)
Definition ascii_upper (c : ascii) : ascii :=
  let n := nat_of_ascii c in
  if (Nat.leb 97 n && Nat.leb n 122)%bool then ascii_of_nat (n - 32) else c.

(** [s.lower()]. *)
Fixpoint lower (s : string) : string :=
  match s with
  | EmptyString => EmptyString
  | String c r => String (ascii_lower c) (lower r)
  end.

(** [s.capitalize()]: first character upper-cased, the others lower-cased. *)
Definition capitalize (s : string) : string :=
  match s with
  | EmptyString => EmptyString
  | String c r => String (ascii_upper c) (lower r)
  end.

(** [sep.join(parts)]. *)
Definition join (sep : string) (parts : list string) : string :=
  String.concat sep parts.

(** [str(n)] for a non-negative integer. *)
Definition str_int (n : Z) : string :=
  NilZero.string_of_uint (N.to_uint (Z.to_N n)).

(** [a > b] and [a < b] on numbers. *)
Definition gt (a b : Q) : bool := negb (Qle_bool a b).
Definition lt (a b : Q) : bool := negb (Qle_bool b a).

(** Rounding to the nearest integer, ties to the even one: the rounding
    [format] applies to the exact value of its argument. *)
Definition round_half_even (q : Q) : Z :=
  let f := Qfloor q in
  match Qcompare (q - inject_Z f) (1 # 2) with
  | Lt => f
  | Gt => f + 1
  | Eq => if Z.even f then f else f + 1
  end.

Definition two_digits (n : Z) : string :=
  if n <? 10 then ("0" ++ str_int n)%string else str_int n.

(** [f"{x:.2f}"]. *)
Definition format_2f (x : Q) : string :=
  let cents := round_half_even (Qabs x * 100) in
  ((if lt x 0 then "-" else "")
     ++ str_int (cents / 100) ++ "." ++ two_digits (cents mod 100))%string.

End Py.

(* ------------------------------------------------------------------ *)
(** ** [datetime.datetime] and [datetime.timedelta] *)

Module Datetime.

Record datetime : Type := mk_datetime {
  year : Z; month : Z; day : Z;
  hour : Z; minute : Z; second : Z; microsecond : Z
}.

(** A [timedelta] is kept normalised: [0 <= seconds < 86400] and
    [0 <= microseconds < 1000000]; [days] carries the sign. *)
Record timedelta : Type := mk_timedelta {
  days : Z; seconds : Z; microseconds : Z
}.

(** [timedelta(days, seconds, microseconds)]: carries are propagated with
    floor division, as [divmod] does. *)
Definition timedelta_new (d s us : Z) : timedelta :=
  let s1 := s + us / 1000000 in
  {| days := d + s1 / 86400;
     seconds := s1 mod 86400;
     microseconds := us mod 1000000 |}.

(** [timedelta(hours=h)]. *)
Definition timedelta_hours (h : Z) : timedelta := timedelta_new 0 (h * 3600) 0.

Definition total_microseconds (t : timedelta) : Z :=
  (days t * 86400 + seconds t) * 1000000 + microseconds t.

Definition is_leap (y : Z) : bool :=
  (y mod 4 =? 0) && (negb (y mod 100 =? 0) || (y mod 400 =? 0)).

Definition days_before_year (y : Z) : Z :=
  let p := y - 1 in p * 365 + p / 4 - p / 100 + p / 400.

Definition days_in_month (y m : Z) : Z :=
  if m =? 2 then (if is_leap y then 29 else 28)
  else if (m =? 4) || (m =? 6) || (m =? 9) || (m =? 11) then 30
  else 31.

Fixpoint days_in_first_months (y : Z) (n : nat) : Z :=
  match n with
  | O => 0
  | S k => days_in_first_months y k + days_in_month y (Z.of_nat n)
  end.

Definition days_before_month (y m : Z) : Z :=
  days_in_first_months y (Z.to_nat (m - 1)).

(** [d.toordinal()]: 1 for 0001-01-01. *)
Definition toordinal (d : datetime) : Z :=
  days_before_year (year d) + days_before_month (year d) (month d) + day d.

Definition seconds_of_day (d : datetime) : Z :=
  second d + minute d * 60 + hour d * 3600.

(** [a - b] on two datetimes. *)
Definition sub (a b : datetime) : timedelta :=
  timedelta_new (toordinal a - toordinal b)
                (seconds_of_day a - seconds_of_day b)
                (microsecond a - microsecond b).

(** Microseconds since the start of day 0, used to reason on [sub]. *)
Definition stamp (d : datetime) : Z :=
  (toordinal d * 86400 + seconds_of_day d) * 1000000 + microsecond d.

End Datetime.

(* ------------------------------------------------------------------ *)
(** ** The data held by a [BudgetTracker] *)

Import Datetime.

(** An entry of [self.transactions]: the dict built at lines 30-34. *)
Record Transaction : Type := mk_transaction {
  amount : Q;
  category : string;
  type : string
}.

(** An entry of [self.recurring_transactions]: the dict built at
    lines 47-53.  Its keys ["amount"], ["category"] and ["type"] carry the
    prefix [rec_] to keep them apart from those of a [Transaction]. *)
Record Recurring : Type := mk_recurring {
  rec_amount : Q;
  rec_category : string;
  rec_type : string;
  frequency : string;
  last_added : datetime
}.

Record BudgetTracker : Type := mk_tracker {
  balance : Q;
  transactions : list Transaction;
  balance_threshold : Q;
  large_expense_threshold : Q;
  recurring_transactions : list Recurring
}.

(** [BudgetTracker.__init__]. *)
Definition init : BudgetTracker :=
  {| balance := 0;
     transactions := [];
     balance_threshold := 100;
     large_expense_threshold := 500;
     recurring_transactions := [] |}.

Definition set_balance (b : Q) (s : BudgetTracker) : BudgetTracker :=
  {| balance := b;
     transactions := transactions s;
     balance_threshold := balance_threshold s;
     large_expense_threshold := large_expense_threshold s;
     recurring_transactions := recurring_transactions s |}.

Definition set_transactions (l : list Transaction) (s : BudgetTracker)
  : BudgetTracker :=
  {| balance := balance s;
     transactions := l;
     balance_threshold := balance_threshold s;
     large_expense_threshold := large_expense_threshold s;
     recurring_transactions := recurring_transactions s |}.

Definition set_recurring (l : list Recurring) (s : BudgetTracker)
  : BudgetTracker :=
  {| balance := balance s;
     transactions := transactions s;
     balance_threshold := balance_threshold s;
     large_expense_threshold := large_expense_threshold s;
     recurring_transactions := l |}.

Definition set_last_added (t : datetime) (r : Recurring) : Recurring :=
  {| rec_amount := rec_amount r;
     rec_category := rec_category r;
     rec_type := rec_type r;
     frequency := frequency r;
     last_added := t |}.

(** [l[i] = f(l[i])] for an index in range; the list is left as it is
    otherwise (the loop of the class only visits indexes in range). *)
Fixpoint update_at {A : Type} (i : nat) (f : A -> A) (l : list A) : list A :=
  match l, i with
  | [], _ => []
  | x :: r, O => f x :: r
  | x :: r, S k => x :: update_at k f r
  end.

(* ------------------------------------------------------------------ *)
(** ** Effects: what a method shows, notifies and reads *)

(** What leaves the object: a desktop notification ([notify_user]) or a
    message of the user interface ([st.error], [st.success]). *)
Inductive Effect : Type :=
| Notify (title message : string)
| StError (message : string)
| StSuccess (message : string).

(** An effect together with the object as it was when the effect was
    issued. *)
Record Emitted : Type := mk_emitted {
  effect : Effect;
  at_state : BudgetTracker
}.

(** The state threaded through the methods.  [wall_clock k] is the value of
    the [k]-th call of [datetime.datetime.now()]. *)
Record World : Type := mk_world {
  self : BudgetTracker;
  shown : list Emitted;
  wall_clock : nat -> datetime;
  clock_reads : nat
}.

Definition M (A : Type) : Type := World -> A * World.

Definition ret {A : Type} (a : A) : M A := fun w => (a, w).

Definition bind {A B : Type} (m : M A) (k : A -> M B) : M B :=
  fun w => let (a, w') := m w in k a w'.

Declare Scope monad_scope.
Delimit Scope monad_scope with monad.
Notation "x <- m ;; k" := (bind m (fun x => k))
  (at level 61, m at next level, right associativity) : monad_scope.
Notation "m ;; k" := (bind m (fun _ => k))
  (at level 61, right associativity) : monad_scope.
Local Open Scope monad_scope.

Definition exec {A : Type} (m : M A) (w : World) : World := snd (m w).
Definition eval {A : Type} (m : M A) (w : World) : A := fst (m w).

Definition read_self : M BudgetTracker := fun w => (self w, w).

Definition modify_self (f : BudgetTracker -> BudgetTracker) : M unit :=
  fun w => (tt, {| self := f (self w);
                   shown := shown w;
                   wall_clock := wall_clock w;
                   clock_reads := clock_reads w |}).

Definition emit (e : Effect) : M unit :=
  fun w => (tt, {| self := self w;
                   shown := shown w ++ [ {| effect := e; at_state := self w |} ];
                   wall_clock := wall_clock w;
                   clock_reads := clock_reads w |}).

(** [datetime.datetime.now()]. *)
Definition now : M datetime :=
  fun w => (wall_clock w (clock_reads w),
            {| self := self w;
               shown := shown w;
               wall_clock := wall_clock w;
               clock_reads := S (clock_reads w) |}).

Definition when (b : bool) (m : M unit) : M unit := if b then m else ret tt.

Fixpoint for_each {A : Type} (l : list A) (body : A -> M unit) : M unit :=
  match l with
  | [] => ret tt
  | x :: r => body x ;; for_each r body
  end.

(* ------------------------------------------------------------------ *)
(** ** The methods of [BudgetTracker] *)

Local Open Scope string_scope.

(** [notify_user] (lines 117-128): the notification is handed to the
    desktop notifier; when that fails the same text is printed.  Neither
    path touches the object. *)
Definition notify_user (title message : string) : M unit :=
  emit (Notify title message).

Definition large_expense_message (amount : Q) (category : string) : string :=
  "A large expense of $" ++ Py.format_2f amount
    ++ " was recorded in the '" ++ category ++ "' category.".

Definition low_balance_message (threshold balance : Q) : string :=
  "Your balance is below the threshold ($" ++ Py.format_2f threshold
    ++ "). Current balance: $" ++ Py.format_2f balance ++ ".".

Definition added_message (transaction_type : string) (amount : Q)
    (category : string) : string :=
  "Transaction added: " ++ transaction_type ++ " of $"
    ++ Py.format_2f amount ++ " in '" ++ category ++ "' category.".

Definition invalid_type_message : string :=
  "Invalid transaction type. Use 'income' or 'expense'.".

(** Lines 30-43 of [add_transaction]: what follows the [if]/[elif]/[else]
    when the [else] branch has not returned. *)
Definition record_transaction (amount : Q) (category transaction_type : string)
  : M unit :=
  let transaction :=
    {| amount := amount; category := category; type := transaction_type |} in
  modify_self (fun s => set_transactions (transactions s ++ [transaction]) s) ;;
  emit (StSuccess (added_message transaction_type amount category)) ;;
  s <- read_self ;;
  when (Py.lt (balance s) (balance_threshold s))
       (notify_user "Low Balance Alert"
          (low_balance_message (balance_threshold s) (balance s))).

(** [add_transaction] (lines 15-43). *)
Definition add_transaction (amount : Q) (category transaction_type : string)
  : M unit :=
  if Py.lower transaction_type =? "income" then
    modify_self (fun s => set_balance (balance s + amount)%Q s) ;;
    record_transaction amount category transaction_type
  else if Py.lower transaction_type =? "expense" then
    modify_self (fun s => set_balance (balance s - amount)%Q s) ;;
    s <- read_self ;;
    when (Py.gt amount (large_expense_threshold s))
         (notify_user "Large Expense Alert"
            (large_expense_message amount category)) ;;
    record_transaction amount category transaction_type
  else
    emit (StError invalid_type_message).

Definition recurring_added_message (transaction_type : string) (amount : Q)
    (category frequency : string) : string :=
  "Recurring transaction added: " ++ transaction_type ++ " of $"
    ++ Py.format_2f amount ++ " in '" ++ category ++ "' category, "
    ++ frequency ++ ".".

(** [add_recurring_transaction] (lines 45-55). *)
Definition add_recurring_transaction (amount : Q)
    (category transaction_type frequency : string) : M unit :=
  t <- now ;;
  let recurring_transaction :=
    {| rec_amount := amount; rec_category := category;
       rec_type := transaction_type; frequency := frequency;
       last_added := t |} in
  modify_self (fun s =>
    set_recurring (recurring_transactions s ++ [recurring_transaction]) s) ;;
  emit (StSuccess
          (recurring_added_message transaction_type amount category frequency)).

(** The two statements of lines 65-66, repeated at lines 68-69 and 71-72:
    the rule at index [i] is materialised through [add_transaction] and its
    ["last_added"] is set to [t].  The dict is shared with the list, so the
    assignment is an update of [self.recurring_transactions] in place. *)
Definition materialize (i : nat) (transaction : Recurring) (t : datetime)
  : M unit :=
  add_transaction (rec_amount transaction) (rec_category transaction)
                  (rec_type transaction) ;;
  modify_self (fun s =>
    set_recurring
      (update_at i (set_last_added t) (recurring_transactions s)) s).

(** The body of the loop of [process_recurring_transactions] (lines 60-72)
    for the dict at index [i] of [self.recurring_transactions]. *)
Definition process_rule (i : nat) : M unit :=
  s <- read_self ;;
  match nth_error (recurring_transactions s) i with
  | None => ret tt
  | Some transaction =>
      let last_added := last_added transaction in
      t <- now ;;
      if (frequency transaction =? "daily")
         && (days (sub t last_added) >=? 1)%Z
      then materialize i transaction t
      else if (frequency transaction =? "weekly")
         && (days (sub t last_added) >=? 7)%Z
      then materialize i transaction t
      else if (frequency transaction =? "monthly")
         && negb (month t =? month last_added)%Z
      then materialize i transaction t
      else ret tt
  end.

(** [process_recurring_transactions] (lines 57-72): the [for] loop visits
    the indexes of the list in order. *)
Definition process_recurring_transactions : M unit :=
  s <- read_self ;;
  for_each (seq 0 (List.length (recurring_transactions s))) process_rule.

(** [view_balance] (lines 74-75). *)
Definition view_balance : M string :=
  s <- read_self ;;
  ret ("Current Balance: $" ++ Py.format_2f (balance s)).

(** The line built at line 83 for the transaction numbered [idx]. *)
Definition transaction_line (idx : Z) (transaction : Transaction) : string :=
  Py.str_int idx ++ ". " ++ Py.capitalize (type transaction) ++ ": $"
    ++ Py.format_2f (amount transaction)
    ++ " (" ++ category transaction ++ ")".

(** [enumerate(l, start)]. *)
Fixpoint enumerate {A : Type} (l : list A) (start : Z) : list (Z * A) :=
  match l with
  | [] => []
  | x :: r => (start, x) :: enumerate r (start + 1)
  end.

(** The list built by the loop of lines 81-83. *)
Definition transaction_list (l : list Transaction) : list string :=
  map (fun p => transaction_line (fst p) (snd p)) (enumerate l 1).

(** The separator ["\n"]. *)
Definition newline : string := String (ascii_of_nat 10) "".

(** [view_transactions] (lines 77-84). *)
Definition view_transactions : M string :=
  s <- read_self ;;
  match transactions s with
  | [] => ret "No transactions recorded."
  | _ :: _ => ret (Py.join newline (transaction_list (transactions s)))
  end.

(** The column [df['amount']] after line 95 of [visualize_data]: the amount
    is negated when the stored type is exactly ["expense"]. *)
Definition signed_column (l : list Transaction) : list Q :=
  map (fun row => if type row =? "expense" then (- amount row)%Q
                  else amount row) l.

(* ------------------------------------------------------------------ *)
(** ** Observations on a run *)

Local Open Scope list_scope.

(** What a computation adds to [shown] when started in [w]. *)
Definition emitted_by {A : Type} (m : M A) (w : World) : list Emitted :=
  skipn (List.length (shown w)) (shown (exec m w)).

Definition is_notification (e : Emitted) : bool :=
  match effect e with Notify _ _ => true | _ => false end.

Definition has_title (title : string) (e : Emitted) : bool :=
  match effect e with Notify t _ => t =? title | _ => false end.

(** The notifications among a list of effects, and those of each kind. *)
Definition notifications (l : list Emitted) : list Emitted :=
  filter is_notification l.

Definition large_expense_alerts (l : list Emitted) : list Emitted :=
  filter (has_title "Large Expense Alert") l.

Definition low_balance_alerts (l : list Emitted) : list Emitted :=
  filter (has_title "Low Balance Alert") l.

(** The signed amount of a recorded transaction: negative for an expense,
    positive for an income, the kind being read from the stored type the way
    [add_transaction] reads it. *)
Definition signed_amount (t : Transaction) : Q :=
  if Py.lower (type t) =? "expense" then (- amount t)%Q else amount t.

(** The sum of the signed amounts, accumulated from left to right from 0,
    in the order of the history: the additions the balance went through. *)
Definition running_total (l : list Transaction) : Q :=
  fold_left (fun acc t => (acc + signed_amount t)%Q) l 0%Q.

(** A call of [add_transaction]: amount, category, type. *)
Definition Call : Type := (Q * string * string)%type.

Definition run_calls (calls : list Call) : M unit :=
  for_each calls (fun c => add_transaction (fst (fst c)) (snd (fst c)) (snd c)).

(** A world around a given object. *)
Definition world_of (s : BudgetTracker) (clock : nat -> datetime) (k : nat)
  : World :=
  {| self := s; shown := []; wall_clock := clock; clock_reads := k |}.

(* ------------------------------------------------------------------ *)
(** ** The object and the effects after [add_transaction] *)

(** The object after lines 30-35. *)
Definition recorded (amount : Q) (category transaction_type : string)
    (s : BudgetTracker) : BudgetTracker :=
  set_transactions
    (transactions s ++
       [ {| amount := amount; category := category;
            type := transaction_type |} ]) s.

(** What lines 36-43 show for an object [s] already updated. *)
Definition recorded_effects (amount : Q) (category transaction_type : string)
    (s : BudgetTracker) : list Emitted :=
  {| effect := StSuccess (added_message transaction_type amount category);
     at_state := s |}
  :: (if Py.lt (balance s) (balance_threshold s)
      then [ {| effect := Notify "Low Balance Alert"
                            (low_balance_message (balance_threshold s)
                                                 (balance s));
                at_state := s |} ]
      else []).

(** The expense's alert of lines 21-25, issued on the object [s] whose
    balance has been updated. *)
Definition large_expense_effects (amount : Q) (category : string)
    (s : BudgetTracker) : list Emitted :=
  if Py.gt amount (large_expense_threshold s)
  then [ {| effect := Notify "Large Expense Alert"
                        (large_expense_message amount category);
            at_state := s |} ]
  else [].

(** The invariant: the stored balance is the running total of the history. *)
Definition consistent (s : BudgetTracker) : Prop :=
  balance s = running_total (transactions s).

(* ------------------------------------------------------------------ *)
(** ** Concrete trackers: a salary, then the rent *)

Definition midnight : datetime := mk_datetime 2024 1 1 0 0 0 0.

Definition scenario_start : World := world_of init (fun _ => midnight) 0.

Definition scenario_salary : M unit := add_transaction 50 "Salary" "income".

Definition scenario_rent : M unit := add_transaction 600 "Rent" "expense".

Definition scenario_after_salary : World := exec scenario_salary scenario_start.

Definition scenario_after_rent : World :=
  exec scenario_rent scenario_after_salary.

(** A call with a type that is neither of the two accepted. *)
Definition scenario_gift : M unit := add_transaction 10 "Gift" "transfer".

(* ------------------------------------------------------------------ *)
(** ** Reading the loop of [process_recurring_transactions] *)

(** The three tests of lines 64, 67 and 70, taken together. *)
Definition due (r : Recurring) (t : datetime) : bool :=
  ((frequency r =? "daily") && (days (sub t (last_added r)) >=? 1)%Z)
  || ((frequency r =? "weekly") && (days (sub t (last_added r)) >=? 7)%Z)
  || ((frequency r =? "monthly") && negb (month t =? month (last_added r))%Z).

(** The type is one that [add_transaction] accepts. *)
Definition accepted (ty : string) : bool :=
  (Py.lower ty =? "income") || (Py.lower ty =? "expense").

(** The world after one call of [datetime.datetime.now()]. *)
Definition tick (w : World) : World :=
  {| self := self w; shown := shown w; wall_clock := wall_clock w;
     clock_reads := S (clock_reads w) |}.

Definition current_time (w : World) : datetime := wall_clock w (clock_reads w).

(* ------------------------------------------------------------------ *)
(** ** Concrete trackers with a recurring rule *)

(** A weekly rule whose type is not one of the two accepted. *)
Definition gym_rule : Recurring :=
  {| rec_amount := 20; rec_category := "Gym"; rec_type := "transfer";
     frequency := "weekly"; last_added := mk_datetime 2024 1 1 8 0 0 0 |}.

Definition gym_world : World :=
  world_of (set_recurring [gym_rule] init)
           (fun _ => mk_datetime 2024 1 9 7 30 0 0) 0.

(** A rule last fired on 2023-12-15, looked at on 2024-12-15. *)
Definition december_2023 : datetime := mk_datetime 2023 12 15 9 0 0 0.
Definition december_2024 : datetime := mk_datetime 2024 12 15 9 0 0 0.

Definition rent_rule (freq : string) : Recurring :=
  {| rec_amount := 1200; rec_category := "Rent"; rec_type := "expense";
     frequency := freq; last_added := december_2023 |}.

Definition rent_world (freq : string) : World :=
  world_of (set_recurring [rent_rule freq] init) (fun _ => december_2024) 0.

(** A clock read three times: at 08:00, 25 hours later and 26 hours later. *)
Definition coffee_clock (k : nat) : datetime :=
  match k with
  | O => mk_datetime 2024 2 28 8 0 0 0
  | S O => mk_datetime 2024 2 29 9 0 0 0
  | _ => mk_datetime 2024 2 29 10 0 0 0
  end.

Definition coffee_start : World := world_of init coffee_clock 0.

Definition coffee_created : World :=
  exec (add_recurring_transaction 15 "Coffee" "expense" "daily") coffee_start.

Definition coffee_first_pass : World :=
  exec process_recurring_transactions coffee_created.

Definition coffee_second_pass : World :=
  exec process_recurring_transactions coffee_first_pass.

(** A tracker that already holds a monthly rule, and a clock read five
    times: when the daily rule is created, then once for each of the two
    rules in a pass 25 hours later and in a pass 26 hours later. *)
Definition shared_clock (k : nat) : datetime :=
  match k with
  | O => mk_datetime 2024 2 28 8 0 0 0
  | S O | S (S O) => mk_datetime 2024 2 29 9 0 0 0
  | _ => mk_datetime 2024 2 29 10 0 0 0
  end.

Definition shared_start : World :=
  world_of (set_recurring [rent_rule "monthly"] init) shared_clock 0.

Definition shared_first_pass : World :=
  exec process_recurring_transactions
    (exec (add_recurring_transaction 15 "Coffee" "expense" "daily")
          shared_start).

Definition shared_second_pass : World :=
  exec process_recurring_transactions shared_first_pass.

(** The same two passes for a daily rule created with the type
    ["transfer"]. *)
Definition transfer_second_pass : World :=
  exec process_recurring_transactions
    (exec process_recurring_transactions
       (exec (add_recurring_transaction 15 "Coffee" "transfer" "daily")
             coffee_start)).

(* ------------------------------------------------------------------ *)
(** ** A pass of [process_recurring_transactions], described on lists *)

(** The dict appended by [add_transaction] for a rule. *)
Definition transaction_of (r : Recurring) : Transaction :=
  {| amount := rec_amount r; category := rec_category r;
     type := rec_type r |}.

(** The rules after a pass whose first reading of the clock is [clock k]:
    each rule is judged against its own reading, in the order of the list,
    and a rule that is due takes that reading as its ["last_added"]. *)
Fixpoint advance (clock : nat -> datetime) (k : nat) (rules : list Recurring)
  : list Recurring :=
  match rules with
  | [] => []
  | r :: rest =>
      (if due r (clock k) then set_last_added (clock k) r else r)
        :: advance clock (S k) rest
  end.

(** The transactions such a pass appends: one for each rule that is due and
    whose type [add_transaction] accepts, in the order of the rules. *)
Fixpoint fired (clock : nat -> datetime) (k : nat) (rules : list Recurring)
  : list Transaction :=
  match rules with
  | [] => []
  | r :: rest =>
      (if due r (clock k) && accepted (rec_type r)
       then [transaction_of r] else [])
        ++ fired clock (S k) rest
  end.

(** A rule without its ["last_added"]. *)
Definition template (r : Recurring) : Q * string * string * string :=
  (rec_amount r, rec_category r, rec_type r, frequency r).

(** The messages of the user interface among a list of effects. *)
Definition ui_messages (l : list Emitted) : list Emitted :=
  filter (fun e => negb (is_notification e)) l.

(* ------------------------------------------------------------------ *)
(** ** Sequences of method calls *)

(** A call of one of the methods of the class that touch or read the
    ledger. *)
Inductive Op : Type :=
| OpAddTransaction (amt : Q) (cat ty : string)
| OpAddRecurring (amt : Q) (cat ty freq : string)
| OpProcessRecurring
| OpViewBalance
| OpViewTransactions.

Definition run_op (o : Op) : M unit :=
  match o with
  | OpAddTransaction amt cat ty => add_transaction amt cat ty
  | OpAddRecurring amt cat ty freq =>
      add_recurring_transaction amt cat ty freq
  | OpProcessRecurring => process_recurring_transactions
  | OpViewBalance => _ <- view_balance ;; ret tt
  | OpViewTransactions => _ <- view_transactions ;; ret tt
  end.

Definition run_ops (ops : list Op) : M unit := for_each ops run_op.

(** The type passed by the call, if any, is written in lower case, as the
    user interface passes it (lines 146, 152 and 166). *)
Definition lower_case_op (o : Op) : Prop :=
  match o with
  | OpAddTransaction _ _ ty => Py.lower ty = ty
  | OpAddRecurring _ _ ty _ => Py.lower ty = ty
  | _ => True
  end.

(** The types of the history and of the rules are written in lower case. *)
Definition lower_case_state (s : BudgetTracker) : Prop :=
  Forall (fun t => Py.lower (type t) = type t) (transactions s) /\
  Forall (fun r => Py.lower (rec_type r) = rec_type r)
         (recurring_transactions s).

(* ------------------------------------------------------------------ *)
(** ** The cumulative curve of [visualize_data] *)

(** [cumsum] (line 107): the running sums of a column, the first one being
    the first value. *)
Fixpoint cumsum_from (acc : Q) (l : list Q) : list Q :=
  match l with
  | [] => []
  | x :: r => (acc + x)%Q :: cumsum_from (acc + x)%Q r
  end.

Definition cumsum (l : list Q) : list Q :=
  match l with
  | [] => []
  | x :: r => x :: cumsum_from x r
  end.

(** The column [df['cumulative_balance']] (lines 95 and 107). *)
Definition cumulative_balance (l : list Transaction) : list Q :=
  cumsum (signed_column l).

(** Three calls as the user interface makes them. *)
Definition month_of_calls : list Op :=
  [ OpAddTransaction 2000 "Salary" "income";
    OpAddRecurring 1200 "Rent" "expense" "monthly";
    OpAddTransaction 80 "Food" "expense";
    OpProcessRecurring;
    OpViewTransactions ].

(** A clock that stands at the date of [december_2024]. *)
Definition frozen_world (s : BudgetTracker) : World :=
  world_of s (fun _ => december_2024) 0.

(* ================================================================== *)
(** * Properties *)

(* ------------------------------------------------------------------ *)
(** ** Comparisons *)

Lemma py_gt_iff (a b : Q) : Py.gt a b = true <-> (b < a)%Q.
Proof.
  unfold Py.gt. rewrite negb_true_iff, <- not_true_iff_false, Qle_bool_iff.
  split; [apply Qnot_le_lt | apply Qlt_not_le].
Qed.

Lemma py_lt_iff (a b : Q) : Py.lt a b = true <-> (a < b)%Q.
Proof. unfold Py.lt. apply (py_gt_iff b a). Qed.

Lemma py_gt_false_iff (a b : Q) : Py.gt a b = false <-> (a <= b)%Q.
Proof.
  unfold Py.gt. rewrite negb_false_iff. apply Qle_bool_iff.
Qed.

Lemma py_lt_false_iff (a b : Q) : Py.lt a b = false <-> (b <= a)%Q.
Proof. apply (py_gt_false_iff b a). Qed.

(* ------------------------------------------------------------------ *)
(** ** Running [add_transaction] *)

Lemma skipn_length_app {A : Type} (l new : list A) :
  skipn (List.length l) (l ++ new) = new.
Proof. induction l as [| x l IH]; simpl; auto. Qed.

Lemma emitted_by_app {A : Type} (m : M A) (w : World) (new : list Emitted) :
  shown (exec m w) = shown w ++ new -> emitted_by m w = new.
Proof. unfold emitted_by. intros ->. apply skipn_length_app. Qed.

Lemma record_transaction_run amount category ty (w : World) :
  record_transaction amount category ty w =
  (tt, {| self := recorded amount category ty (self w);
          shown := shown w ++
                     recorded_effects amount category ty
                       (recorded amount category ty (self w));
          wall_clock := wall_clock w;
          clock_reads := clock_reads w |}).
Proof.
  unfold record_transaction, recorded_effects, bind, modify_self, emit,
    read_self, when, notify_user, ret.
  cbn [self shown wall_clock clock_reads].
  fold (recorded amount category ty (self w)).
  destruct (Py.lt _ _); unfold emit; cbn [self shown wall_clock clock_reads].
  - rewrite <- app_assoc. reflexivity.
  - reflexivity.
Qed.

Lemma add_transaction_income amount category ty (w : World) :
  Py.lower ty = "income" ->
  let s1 := set_balance (balance (self w) + amount)%Q (self w) in
  add_transaction amount category ty w =
  (tt, {| self := recorded amount category ty s1;
          shown := shown w ++
                     recorded_effects amount category ty
                       (recorded amount category ty s1);
          wall_clock := wall_clock w;
          clock_reads := clock_reads w |}).
Proof.
  intros H s1. unfold add_transaction. rewrite H, String.eqb_refl.
  unfold bind, modify_self. cbv beta iota.
  rewrite record_transaction_run. reflexivity.
Qed.

Lemma add_transaction_expense amount category ty (w : World) :
  Py.lower ty = "expense" ->
  let s1 := set_balance (balance (self w) - amount)%Q (self w) in
  add_transaction amount category ty w =
  (tt, {| self := recorded amount category ty s1;
          shown := shown w ++
                     large_expense_effects amount category s1 ++
                     recorded_effects amount category ty
                       (recorded amount category ty s1);
          wall_clock := wall_clock w;
          clock_reads := clock_reads w |}).
Proof.
  intros H s1. unfold add_transaction. rewrite H.
  change ("expense" =? "income") with false. rewrite String.eqb_refl.
  unfold bind at 1 2 3. unfold modify_self, read_self, when, notify_user.
  cbv beta iota. cbn [self shown wall_clock clock_reads]. fold s1.
  unfold large_expense_effects.
  destruct (Py.gt amount (large_expense_threshold s1)).
  - unfold emit. cbv beta iota. cbn [self shown wall_clock clock_reads].
    rewrite record_transaction_run. cbn [self shown wall_clock clock_reads].
    rewrite <- app_assoc. reflexivity.
  - unfold ret. cbv beta iota. rewrite record_transaction_run.
    cbn [self shown wall_clock clock_reads]. reflexivity.
Qed.

Lemma add_transaction_invalid amount category ty (w : World) :
  Py.lower ty <> "income" ->
  Py.lower ty <> "expense" ->
  add_transaction amount category ty w =
  (tt, {| self := self w;
          shown := shown w ++
                     [ {| effect := StError invalid_type_message;
                          at_state := self w |} ];
          wall_clock := wall_clock w;
          clock_reads := clock_reads w |}).
Proof.
  intros Hi He. unfold add_transaction.
  destruct (String.eqb_spec (Py.lower ty) "income") as [E | _]; [contradiction |].
  destruct (String.eqb_spec (Py.lower ty) "expense") as [E | _]; [contradiction |].
  reflexivity.
Qed.

(** The three ways a type is read by [add_transaction]. *)
Lemma type_cases (ty : string) :
  Py.lower ty = "income" \/ Py.lower ty = "expense" \/
  (Py.lower ty <> "income" /\ Py.lower ty <> "expense").
Proof.
  destruct (string_dec (Py.lower ty) "income"); auto.
  destruct (string_dec (Py.lower ty) "expense"); auto.
Qed.

(* ------------------------------------------------------------------ *)
(** ** The balance and the history *)

Lemma running_total_snoc (l : list Transaction) (t : Transaction) :
  running_total (l ++ [t]) = (running_total l + signed_amount t)%Q.
Proof. unfold running_total. rewrite fold_left_app. reflexivity. Qed.

Lemma add_transaction_consistent amt cat ty (w : World) :
  consistent (self w) ->
  consistent (self (exec (add_transaction amt cat ty) w)).
Proof.
  unfold consistent, exec. intros Hw.
  destruct (type_cases ty) as [H | [H | [Hi He]]].
  - rewrite (add_transaction_income _ _ _ _ H).
    cbn [snd self recorded set_transactions set_balance balance transactions].
    rewrite running_total_snoc, <- Hw. unfold signed_amount.
    cbn [type amount]. rewrite H. reflexivity.
  - rewrite (add_transaction_expense _ _ _ _ H).
    cbn [snd self recorded set_transactions set_balance balance transactions].
    rewrite running_total_snoc, <- Hw. unfold signed_amount.
    cbn [type amount]. rewrite H, String.eqb_refl. reflexivity.
  - rewrite (add_transaction_invalid _ _ _ _ Hi He). exact Hw.
Qed.

Lemma run_calls_consistent (calls : list Call) (w : World) :
  consistent (self w) -> consistent (self (exec (run_calls calls) w)).
Proof.
  revert w. induction calls as [| c r IH]; intros w Hw.
  - exact Hw.
  - unfold run_calls, exec in *. cbn [for_each]. unfold bind.
    pose proof (add_transaction_consistent (fst (fst c)) (snd (fst c)) (snd c)
                  w Hw) as H1.
    unfold exec in H1.
    destruct (add_transaction (fst (fst c)) (snd (fst c)) (snd c) w)
      as [u w1].
    apply IH. exact H1.
Qed.

(** C1.  Whatever calls of [add_transaction] are made on a new tracker, with
    valid or invalid types and any amounts, the stored balance is the sum of
    the signed amounts of the recorded transactions (an income counts
    positively, an expense negatively), the sum being taken from 0 in the
    order of the history: the balance can be recomputed from the history by
    adding the signed amounts one after the other. *)
Theorem balance_recomputable_from_history :
  forall (calls : list Call) (clock : nat -> datetime) (k : nat),
    let s := self (exec (run_calls calls) (world_of init clock k)) in
    balance s = running_total (transactions s).
Proof.
  intros calls clock k s.
  apply (run_calls_consistent calls (world_of init clock k)).
  reflexivity.
Qed.

(* ------------------------------------------------------------------ *)
(** ** The scenario: a salary, then the rent *)

(** C2, as stated, fails: the first call leaves a balance of 50, which is
    below the threshold of 100, so it does emit an alert. *)
Lemma scenario_salary_is_not_silent :
  ~ ((balance (self scenario_after_salary) == 50)%Q /\
     notifications (emitted_by scenario_salary scenario_start) = [] /\
     (balance (self scenario_after_rent) == - (550))%Q /\
     List.length
       (large_expense_alerts (emitted_by scenario_rent scenario_after_salary))
       = 1%nat /\
     List.length
       (low_balance_alerts (emitted_by scenario_rent scenario_after_salary))
       = 1%nat).
Proof.
  intros (_ & H & _). vm_compute in H. discriminate H.
Qed.

(** C2, amended.  On a new tracker (balance 0, thresholds 100 and 500),
    [add_transaction(50, "Salary", "income")] yields the balance 50 and
    emits exactly one notification, a low-balance alert (50 < 100), and no
    large-expense alert; [add_transaction(600, "Rent", "expense")] then
    yields the balance -550 and emits exactly one large-expense alert
    followed by exactly one low-balance alert. *)
Theorem scenario_salary_then_rent :
  forall (clock : nat -> datetime) (k : nat),
    let w0 := world_of init clock k in
    let w1 := exec (add_transaction 50 "Salary" "income") w0 in
    let w2 := exec (add_transaction 600 "Rent" "expense") w1 in
    balance (self w1) = 50%Q /\
    map effect
        (notifications (emitted_by (add_transaction 50 "Salary" "income") w0))
    = [ Notify "Low Balance Alert"
          "Your balance is below the threshold ($100.00). Current balance: $50.00." ]
    /\
    balance (self w2) = (- (550))%Q /\
    map effect
        (notifications (emitted_by (add_transaction 600 "Rent" "expense") w1))
    = [ Notify "Large Expense Alert"
          "A large expense of $600.00 was recorded in the 'Rent' category.";
        Notify "Low Balance Alert"
          "Your balance is below the threshold ($100.00). Current balance: $-550.00." ]
    /\
    map type (transactions (self w2)) = [ "income"; "expense" ].
Proof.
  intros clock k. vm_compute. repeat split.
Qed.

(* ------------------------------------------------------------------ *)
(** ** Rejected types *)

(** C3.  When the type, lower-cased, is neither ["income"] nor ["expense"],
    [add_transaction] returns normally, leaves the balance, the history and
    the recurring rules (indeed the whole object and the clock) as they
    were, emits no notification, and reports the error through [st.error]:
    that message is all the call does. *)
Theorem invalid_type_rejected :
  forall (w : World) (amt : Q) (cat ty : string),
    Py.lower ty <> "income" ->
    Py.lower ty <> "expense" ->
    let call := add_transaction amt cat ty in
    eval call w = tt /\
    balance (self (exec call w)) = balance (self w) /\
    transactions (self (exec call w)) = transactions (self w) /\
    recurring_transactions (self (exec call w))
      = recurring_transactions (self w) /\
    self (exec call w) = self w /\
    clock_reads (exec call w) = clock_reads w /\
    notifications (emitted_by call w) = [] /\
    emitted_by call w =
      [ {| effect := StError invalid_type_message; at_state := self w |} ].
Proof.
  intros w amt cat ty Hi He call.
  assert (Hrun := add_transaction_invalid amt cat ty w Hi He).
  assert (Hout : emitted_by call w =
            [ {| effect := StError invalid_type_message;
                 at_state := self w |} ]).
  { apply emitted_by_app. unfold exec, call. rewrite Hrun. reflexivity. }
  unfold exec, eval, call in *. rewrite Hrun in *. cbn [fst snd self clock_reads].
  rewrite Hout. repeat split; reflexivity.
Qed.

Lemma invalid_type_rejected_witness :
  Py.lower "Transfer" <> "income" /\
  Py.lower "Transfer" <> "expense" /\
  self (exec (add_transaction 75 "Gift" "Transfer") scenario_after_salary)
    = self scenario_after_salary.
Proof.
  assert (Hi : Py.lower "Transfer" <> "income") by (vm_compute; discriminate).
  assert (He : Py.lower "Transfer" <> "expense") by (vm_compute; discriminate).
  split; [exact Hi | split; [exact He |]].
  apply (invalid_type_rejected scenario_after_salary 75 "Gift" "Transfer" Hi He).
Defined.

(* ------------------------------------------------------------------ *)
(** ** The two alerts *)

Lemma large_alerts_of_recorded amt cat ty s :
  large_expense_alerts (recorded_effects amt cat ty s) = [].
Proof.
  unfold recorded_effects. destruct (Py.lt _ _); reflexivity.
Qed.

Lemma low_alerts_of_large amt cat s :
  low_balance_alerts (large_expense_effects amt cat s) = [].
Proof.
  unfold large_expense_effects. destruct (Py.gt _ _); reflexivity.
Qed.

Lemma emitted_by_income amt cat ty (w : World) :
  Py.lower ty = "income" ->
  let s1 := set_balance (balance (self w) + amt)%Q (self w) in
  emitted_by (add_transaction amt cat ty) w =
  recorded_effects amt cat ty (recorded amt cat ty s1).
Proof.
  intros H s1. apply emitted_by_app. unfold exec.
  rewrite (add_transaction_income _ _ _ _ H). reflexivity.
Qed.

Lemma emitted_by_expense amt cat ty (w : World) :
  Py.lower ty = "expense" ->
  let s1 := set_balance (balance (self w) - amt)%Q (self w) in
  emitted_by (add_transaction amt cat ty) w =
  large_expense_effects amt cat s1 ++
  recorded_effects amt cat ty (recorded amt cat ty s1).
Proof.
  intros H s1. apply emitted_by_app. unfold exec.
  rewrite (add_transaction_expense _ _ _ _ H). reflexivity.
Qed.

(** C4.  An expense whose amount is strictly above
    [large_expense_threshold] emits exactly one large-expense alert, and the
    object at that moment has its balance already updated and its history
    not yet extended; the transaction is appended afterwards.  An expense
    equal to the threshold emits no large-expense alert, and an income never
    emits one. *)
Theorem large_expense_alert_rule :
  forall (w : World) (amt : Q) (cat ty : string),
    let call := add_transaction amt cat ty in
    (Py.lower ty = "expense" ->
     (large_expense_threshold (self w) < amt)%Q ->
     exists e,
       large_expense_alerts (emitted_by call w) = [e] /\
       effect e = Notify "Large Expense Alert"
                         (large_expense_message amt cat) /\
       transactions (at_state e) = transactions (self w) /\
       balance (at_state e) = (balance (self w) - amt)%Q /\
       transactions (self (exec call w)) =
         transactions (at_state e) ++
           [ {| amount := amt; category := cat; type := ty |} ]) /\
    (Py.lower ty = "expense" ->
     (amt == large_expense_threshold (self w))%Q ->
     large_expense_alerts (emitted_by call w) = []) /\
    (Py.lower ty = "income" ->
     large_expense_alerts (emitted_by call w) = []).
Proof.
  intros w amt cat ty call. unfold call. split; [| split].
  - intros H Hgt.
    rewrite (emitted_by_expense _ _ _ _ H). unfold exec.
    rewrite (add_transaction_expense _ _ _ _ H).
    unfold large_expense_alerts. rewrite filter_app.
    fold (large_expense_alerts
            (recorded_effects amt cat ty
               (recorded amt cat ty
                  (set_balance (balance (self w) - amt)%Q (self w))))).
    rewrite large_alerts_of_recorded, app_nil_r.
    unfold large_expense_effects.
    cbn [large_expense_threshold set_balance].
    apply py_gt_iff in Hgt. rewrite Hgt.
    eexists. split; [reflexivity |]. repeat split; reflexivity.
  - intros H Heq.
    rewrite (emitted_by_expense _ _ _ _ H).
    unfold large_expense_alerts. rewrite filter_app.
    fold (large_expense_alerts
            (recorded_effects amt cat ty
               (recorded amt cat ty
                  (set_balance (balance (self w) - amt)%Q (self w))))).
    rewrite large_alerts_of_recorded, app_nil_r.
    unfold large_expense_effects.
    cbn [large_expense_threshold set_balance].
    assert (Hle : Py.gt amt (large_expense_threshold (self w)) = false).
    { apply py_gt_false_iff. rewrite Heq. apply Qle_refl. }
    rewrite Hle. reflexivity.
  - intros H. rewrite (emitted_by_income _ _ _ _ H).
    apply large_alerts_of_recorded.
Qed.

Lemma large_expense_alert_rule_witness :
  (Py.lower "expense" = "expense" /\
   (large_expense_threshold (self scenario_after_salary) < 600)%Q /\
   exists e,
     large_expense_alerts (emitted_by scenario_rent scenario_after_salary)
       = [e] /\
     transactions (at_state e) = transactions (self scenario_after_salary)) /\
  ((500 == large_expense_threshold (self scenario_after_salary))%Q /\
   large_expense_alerts
     (emitted_by (add_transaction 500 "Rent" "expense") scenario_after_salary)
     = []) /\
  (Py.lower "Income" = "income" /\
   large_expense_alerts
     (emitted_by (add_transaction 9000 "Bonus" "Income") scenario_start) = []).
Proof.
  split; [| split].
  - split; [reflexivity | split; [reflexivity |]].
    destruct (proj1 (large_expense_alert_rule scenario_after_salary 600
                       "Rent" "expense") eq_refl eq_refl)
      as (e & H1 & _ & H2 & _).
    exists e. split; [exact H1 | exact H2].
  - split; [reflexivity |].
    apply (proj1 (proj2 (large_expense_alert_rule scenario_after_salary 500
                           "Rent" "expense")) eq_refl).
    reflexivity.
  - split; [reflexivity |].
    apply (proj2 (proj2 (large_expense_alert_rule scenario_start 9000
                           "Bonus" "Income")) eq_refl).
Defined.

(** C5, as stated, fails: a call whose type is rejected on a new tracker
    leaves the balance at 0, strictly below the threshold of 100, and emits
    no low-balance alert. *)
Lemma rejected_call_emits_no_low_balance_alert :
  ~ ((balance (self (exec scenario_gift scenario_start))
        < balance_threshold (self (exec scenario_gift scenario_start)))%Q ->
     List.length (low_balance_alerts (emitted_by scenario_gift scenario_start))
       = 1%nat).
Proof.
  intros H. assert (Hlt : (balance (self (exec scenario_gift scenario_start))
        < balance_threshold (self (exec scenario_gift scenario_start)))%Q)
    by reflexivity.
  specialize (H Hlt). vm_compute in H. discriminate H.
Qed.

(** C5, amended.  After a call of [add_transaction] whose type is accepted,
    income or expense alike: when the resulting balance is strictly below
    [balance_threshold] exactly one low-balance alert is emitted, issued on
    the final object; when the resulting balance equals the threshold (or
    exceeds it) none is. *)
Theorem low_balance_alert_rule :
  forall (w : World) (amt : Q) (cat ty : string),
    Py.lower ty = "income" \/ Py.lower ty = "expense" ->
    let call := add_transaction amt cat ty in
    let s' := self (exec call w) in
    ((balance s' < balance_threshold s')%Q ->
     low_balance_alerts (emitted_by call w) =
       [ {| effect := Notify "Low Balance Alert"
                        (low_balance_message (balance_threshold s')
                                             (balance s'));
            at_state := s' |} ]) /\
    ((balance s' == balance_threshold s')%Q ->
     low_balance_alerts (emitted_by call w) = []) /\
    ((balance_threshold s' <= balance s')%Q ->
     low_balance_alerts (emitted_by call w) = []).
Proof.
  intros w amt cat ty Hty call s'.
  assert (Hout : low_balance_alerts (emitted_by call w) =
                 low_balance_alerts (recorded_effects amt cat ty s')).
  { unfold s', call, exec. destruct Hty as [H | H].
    - rewrite (emitted_by_income _ _ _ _ H).
      rewrite (add_transaction_income _ _ _ _ H). reflexivity.
    - rewrite (emitted_by_expense _ _ _ _ H).
      rewrite (add_transaction_expense _ _ _ _ H).
      unfold low_balance_alerts at 1. rewrite filter_app.
      fold (low_balance_alerts
              (large_expense_effects amt cat
                 (set_balance (balance (self w) - amt)%Q (self w)))).
      rewrite low_alerts_of_large. reflexivity. }
  rewrite Hout. unfold recorded_effects.
  assert (Hge : (balance_threshold s' <= balance s')%Q ->
                low_balance_alerts
                  ({| effect := StSuccess (added_message ty amt cat);
                      at_state := s' |}
                   :: (if Py.lt (balance s') (balance_threshold s')
                       then [ {| effect := Notify "Low Balance Alert"
                                   (low_balance_message (balance_threshold s')
                                      (balance s'));
                                 at_state := s' |} ]
                       else [])) = []).
  { intros Hle. apply py_lt_false_iff in Hle. rewrite Hle. reflexivity. }
  split; [| split].
  - intros Hlt. apply py_lt_iff in Hlt. rewrite Hlt. reflexivity.
  - intros Heq. apply Hge. rewrite Heq. apply Qle_refl.
  - exact Hge.
Qed.

Lemma low_balance_alert_rule_witness :
  (Py.lower "income" = "income" \/ Py.lower "income" = "expense") /\
  ((balance (self scenario_after_salary)
      < balance_threshold (self scenario_after_salary))%Q /\
   List.length
     (low_balance_alerts (emitted_by scenario_salary scenario_start))
     = 1%nat) /\
  ((balance (self (exec (add_transaction 100 "Salary" "income") scenario_start))
      == balance_threshold
           (self (exec (add_transaction 100 "Salary" "income") scenario_start)))%Q
   /\
   low_balance_alerts
     (emitted_by (add_transaction 100 "Salary" "income") scenario_start) = []).
Proof.
  split; [left; reflexivity |]. split.
  - split; [reflexivity |]. unfold scenario_salary.
    rewrite (proj1 (low_balance_alert_rule scenario_start 50 "Salary" "income"
                      (or_introl eq_refl))); reflexivity.
  - split; [reflexivity |].
    apply (proj1 (proj2 (low_balance_alert_rule scenario_start 100 "Salary"
                           "income" (or_introl eq_refl)))).
    reflexivity.
Defined.

(* ------------------------------------------------------------------ *)
(** ** Upper and lower case in the type *)

Lemma notifications_of_recorded amt cat ty ty' s s' :
  balance s = balance s' ->
  balance_threshold s = balance_threshold s' ->
  map effect (notifications (recorded_effects amt cat ty s)) =
  map effect (notifications (recorded_effects amt cat ty' s')).
Proof.
  intros Hb Ht. unfold recorded_effects. rewrite Hb, Ht.
  destruct (Py.lt _ _); reflexivity.
Qed.

(** C10.  The type is matched without regard to case: when the type passed
    lower-cases to ["income"] (or to ["expense"]), the balance and the
    notifications are those of the call with the lower-case word, and the
    entry appended to the history holds the type exactly as it was passed. *)
Theorem type_matching_ignores_case :
  forall (w : World) (amt : Q) (cat ty kind : string),
    kind = "income" \/ kind = "expense" ->
    Py.lower ty = kind ->
    let given := add_transaction amt cat ty in
    let normal := add_transaction amt cat kind in
    balance (self (exec given w)) = balance (self (exec normal w)) /\
    map effect (notifications (emitted_by given w)) =
      map effect (notifications (emitted_by normal w)) /\
    transactions (self (exec given w)) =
      transactions (self w) ++
        [ {| amount := amt; category := cat; type := ty |} ] /\
    transactions (self (exec normal w)) =
      transactions (self w) ++
        [ {| amount := amt; category := cat; type := kind |} ].
Proof.
  intros w amt cat ty kind Hkind Hty given normal. unfold given, normal.
  destruct Hkind as [-> | ->].
  - assert (Hk : Py.lower "income" = "income") by reflexivity.
    rewrite (emitted_by_income _ _ _ _ Hty), (emitted_by_income _ _ _ _ Hk).
    unfold exec.
    rewrite (add_transaction_income _ _ _ _ Hty),
            (add_transaction_income _ _ _ _ Hk).
    repeat split.
    apply notifications_of_recorded; reflexivity.
  - assert (Hk : Py.lower "expense" = "expense") by reflexivity.
    rewrite (emitted_by_expense _ _ _ _ Hty), (emitted_by_expense _ _ _ _ Hk).
    unfold exec.
    rewrite (add_transaction_expense _ _ _ _ Hty),
            (add_transaction_expense _ _ _ _ Hk).
    repeat split.
    unfold notifications. rewrite !filter_app, !map_app. f_equal.
    apply notifications_of_recorded; reflexivity.
Qed.

Lemma type_matching_ignores_case_witness :
  ("expense" = "income" \/ "expense" = "expense") /\
  Py.lower "ExPenSe" = "expense" /\
  balance (self (exec (add_transaction 600 "Rent" "ExPenSe")
                      scenario_after_salary))
    = balance (self scenario_after_rent) /\
  map type (transactions
              (self (exec (add_transaction 600 "Rent" "ExPenSe")
                          scenario_after_salary)))
    = [ "income"; "ExPenSe" ].
Proof.
  split; [right; reflexivity |]. split; [reflexivity |].
  destruct (type_matching_ignores_case scenario_after_salary 600 "Rent"
              "ExPenSe" "expense" (or_intror eq_refl) eq_refl)
    as (Hb & _ & Ht & _).
  split.
  - exact Hb.
  - rewrite Ht. reflexivity.
Defined.

(* ------------------------------------------------------------------ *)
(** ** The report of the history *)

Lemma enumerate_length {A : Type} (l : list A) (start : Z) :
  List.length (enumerate l start) = List.length l.
Proof.
  revert start. induction l as [| x r IH]; intros start; simpl; auto.
Qed.

Lemma enumerate_nth {A : Type} (l : list A) (start : Z) (i : nat) (x : A) :
  nth_error l i = Some x ->
  nth_error (enumerate l start) i = Some ((start + Z.of_nat i)%Z, x).
Proof.
  revert start i. induction l as [| y r IH]; intros start i H.
  - destruct i; discriminate H.
  - destruct i as [| j].
    + injection H as ->. simpl. rewrite Z.add_0_r. reflexivity.
    + cbn [nth_error enumerate] in *. rewrite (IH _ _ H).
      do 2 f_equal. lia.
Qed.

Lemma transaction_list_length (l : list Transaction) :
  List.length (transaction_list l) = List.length l.
Proof.
  unfold transaction_list. rewrite length_map. apply enumerate_length.
Qed.

Lemma transaction_list_nth (l : list Transaction) (i : nat) (t : Transaction) :
  nth_error l i = Some t ->
  nth_error (transaction_list l) i
    = Some (transaction_line (Z.of_nat i + 1) t).
Proof.
  intros H. unfold transaction_list.
  rewrite nth_error_map, (enumerate_nth _ 1 _ _ H).
  cbn [option_map fst snd]. do 2 f_equal. lia.
Qed.

Lemma first_line_starts_with_1 (t : Transaction) :
  exists rest, transaction_line 1 t = String "1" rest.
Proof. eexists. reflexivity. Qed.

Lemma report_of_history_is_not_the_notice (t : Transaction)
    (r : list Transaction) :
  Py.join newline (transaction_list (t :: r)) <> "No transactions recorded.".
Proof.
  unfold transaction_list, Py.join.
  cbn [enumerate map fst snd String.concat].
  destruct (first_line_starts_with_1 t) as [rest ->].
  destruct (map _ (enumerate r (1 + 1))); cbn [append]; discriminate.
Qed.

(** C8.  [view_transactions] never changes the object.  On an empty history
    it returns the notice ["No transactions recorded."], which is neither the
    empty listing nor the listing of any non-empty history.  On a non-empty
    history it returns the lines of [transaction_list] joined by newlines:
    one per transaction, in the order of the history, the line of the
    transaction at position [i] (from 0) being numbered [i + 1]. *)
Theorem view_transactions_report :
  forall (w : World),
    let s := self w in
    let report := eval view_transactions w in
    exec view_transactions w = w /\
    (transactions s = [] ->
     report = "No transactions recorded." /\
     report <> Py.join newline (transaction_list [])) /\
    (transactions s <> [] ->
     report = Py.join newline (transaction_list (transactions s)) /\
     report <> "No transactions recorded.") /\
    List.length (transaction_list (transactions s))
      = List.length (transactions s) /\
    (forall (i : nat) (t : Transaction),
        nth_error (transactions s) i = Some t ->
        nth_error (transaction_list (transactions s)) i
          = Some (transaction_line (Z.of_nat i + 1) t)).
Proof.
  intros w s report. unfold report, s, eval, exec, view_transactions, bind,
    read_self, ret.
  split; [| split; [| split; [| split]]].
  - destruct w as [sf sh wc cr]. cbn [self]. destruct (transactions sf);
      reflexivity.
  - intros H. rewrite H. cbn [fst]. split; [reflexivity | discriminate].
  - intros H. destruct (transactions (self w)) as [| t r] eqn:E;
      [contradiction |].
    cbn [fst]. split; [reflexivity |].
    apply report_of_history_is_not_the_notice.
  - apply transaction_list_length.
  - apply transaction_list_nth.
Qed.

Lemma view_transactions_report_witness :
  transactions (self scenario_after_rent) <> [] /\
  eval view_transactions scenario_after_rent
    = ("1. Income: $50.00 (Salary)" ++ newline
         ++ "2. Expense: $600.00 (Rent)")%string
  /\
  (transactions (self scenario_start) = [] /\
   eval view_transactions scenario_start = "No transactions recorded.").
Proof.
  assert (Hne : transactions (self scenario_after_rent) <> [])
    by (vm_compute; discriminate).
  split; [exact Hne |]. split.
  - rewrite (proj1 (proj1 (proj2 (proj2
               (view_transactions_report scenario_after_rent))) Hne)).
    reflexivity.
  - split; [reflexivity |].
    apply (proj1 (proj2 (view_transactions_report scenario_start))).
    reflexivity.
Defined.

(* ------------------------------------------------------------------ *)
(** ** Dates and durations *)

Lemma total_microseconds_new (d s us : Z) :
  total_microseconds (timedelta_new d s us)
    = ((d * 86400 + s) * 1000000 + us)%Z.
Proof.
  unfold total_microseconds, timedelta_new. cbn [days seconds microseconds].
  Z.div_mod_to_equations. lia.
Qed.

Lemma days_new (d s us : Z) :
  days (timedelta_new d s us)
    = (((d * 86400 + s) * 1000000 + us) / 86400000000)%Z.
Proof.
  unfold timedelta_new. cbn [days]. Z.div_mod_to_equations. lia.
Qed.

Lemma total_microseconds_sub (a b : datetime) :
  total_microseconds (sub a b) = (stamp a - stamp b)%Z.
Proof. unfold sub. rewrite total_microseconds_new. unfold stamp. lia. Qed.

Lemma days_sub (a b : datetime) :
  days (sub a b) = ((stamp a - stamp b) / 86400000000)%Z.
Proof. unfold sub. rewrite days_new. unfold stamp. f_equal. lia. Qed.

Lemma days_sub_self (a : datetime) : days (sub a a) = 0%Z.
Proof. rewrite days_sub, Z.sub_diag. reflexivity. Qed.

Lemma stamp_after_hours (a b : datetime) (h : Z) :
  sub a b = timedelta_hours h -> (stamp a = stamp b + h * 3600000000)%Z.
Proof.
  intros H. pose proof (total_microseconds_sub a b) as E. rewrite H in E.
  unfold timedelta_hours in E. rewrite total_microseconds_new in E. lia.
Qed.

(* ------------------------------------------------------------------ *)
(** ** Recurring rules *)

Lemma process_rule_run (i : nat) (w : World) (r : Recurring) :
  nth_error (recurring_transactions (self w)) i = Some r ->
  process_rule i w =
  if due r (current_time w)
  then materialize i r (current_time w) (tick w)
  else (tt, tick w).
Proof.
  intros H. unfold process_rule, bind, read_self. rewrite H.
  unfold now, due. fold (current_time w). fold (tick w).
  destruct ((frequency r =? "daily")
            && (days (sub (current_time w) (last_added r)) >=? 1)%Z);
    [reflexivity |].
  destruct ((frequency r =? "weekly")
            && (days (sub (current_time w) (last_added r)) >=? 7)%Z);
    [reflexivity |].
  destruct ((frequency r =? "monthly")
            && negb (month (current_time w) =? month (last_added r))%Z);
    reflexivity.
Qed.

Lemma process_rule_out_of_range (i : nat) (w : World) :
  nth_error (recurring_transactions (self w)) i = None ->
  process_rule i w = (tt, w).
Proof.
  intros H. unfold process_rule, bind, read_self. rewrite H. reflexivity.
Qed.

Lemma update_at_length {A : Type} (i : nat) (f : A -> A) (l : list A) :
  List.length (update_at i f l) = List.length l.
Proof.
  revert i. induction l as [| x r IH]; intros [| k]; simpl; auto.
Qed.

Lemma update_at_nth {A : Type} (i : nat) (f : A -> A) (l : list A) (x : A) :
  nth_error l i = Some x -> nth_error (update_at i f l) i = Some (f x).
Proof.
  revert i. induction l as [| y r IH]; intros [| k] H; try discriminate H.
  - injection H as ->. reflexivity.
  - simpl in *. auto.
Qed.

Lemma add_transaction_frame amt cat ty (w : World) :
  let w' := exec (add_transaction amt cat ty) w in
  transactions (self w') =
    transactions (self w) ++
      (if accepted ty
       then [ {| amount := amt; category := cat; type := ty |} ] else []) /\
  recurring_transactions (self w') = recurring_transactions (self w) /\
  balance_threshold (self w') = balance_threshold (self w) /\
  large_expense_threshold (self w') = large_expense_threshold (self w) /\
  wall_clock w' = wall_clock w /\
  clock_reads w' = clock_reads w.
Proof.
  unfold exec, accepted.
  destruct (type_cases ty) as [H | [H | [Hi He]]].
  - rewrite (add_transaction_income _ _ _ _ H), H. repeat split.
  - rewrite (add_transaction_expense _ _ _ _ H), H. repeat split.
  - rewrite (add_transaction_invalid _ _ _ _ Hi He).
    destruct (String.eqb_spec (Py.lower ty) "income"); [contradiction |].
    destruct (String.eqb_spec (Py.lower ty) "expense"); [contradiction |].
    cbn [snd self orb]. rewrite app_nil_r. repeat split.
Qed.

(** The object and the clock after [materialize]. *)
Lemma materialize_frame (i : nat) (r : Recurring) (t : datetime) (w : World) :
  let w' := exec (materialize i r t) w in
  transactions (self w') =
    transactions (self w) ++
      (if accepted (rec_type r)
       then [ {| amount := rec_amount r; category := rec_category r;
                 type := rec_type r |} ] else []) /\
  recurring_transactions (self w') =
    update_at i (set_last_added t) (recurring_transactions (self w)) /\
  balance (self w') =
    balance (self (exec (add_transaction (rec_amount r) (rec_category r)
                                         (rec_type r)) w)) /\
  shown w' =
    shown (exec (add_transaction (rec_amount r) (rec_category r)
                                 (rec_type r)) w) /\
  wall_clock w' = wall_clock w /\
  clock_reads w' = clock_reads w.
Proof.
  pose proof (add_transaction_frame (rec_amount r) (rec_category r)
                (rec_type r) w) as F.
  unfold exec, materialize, bind, modify_self in *.
  destruct (add_transaction (rec_amount r) (rec_category r) (rec_type r) w)
    as [u w1].
  cbn [snd self shown wall_clock clock_reads set_recurring transactions
       recurring_transactions balance] in *.
  destruct F as (F1 & F2 & _ & _ & F5 & F6).
  rewrite F1, F2, F5, F6. repeat split.
Qed.

Lemma accepted_false (ty : string) :
  accepted ty = false ->
  Py.lower ty <> "income" /\ Py.lower ty <> "expense".
Proof.
  unfold accepted. intros H. apply orb_false_elim in H as [Hi He].
  split; intros E; rewrite E in *; discriminate.
Qed.

Lemma due_just_fired (r : Recurring) (t : datetime) :
  due (set_last_added t r) t = false.
Proof.
  unfold due. cbn [last_added frequency set_last_added].
  rewrite days_sub_self, Z.eqb_refl.
  change (0 >=? 1)%Z with false. change (0 >=? 7)%Z with false.
  cbn [negb]. rewrite !andb_false_r. reflexivity.
Qed.

(** A monthly rule is never due in the calendar month of its last firing,
    whatever the year. *)
Lemma monthly_same_month_not_due (r : Recurring) (t : datetime) :
  frequency r = "monthly" ->
  month t = month (last_added r) ->
  due r t = false.
Proof.
  intros Hf Hm. unfold due. rewrite Hf, Hm, Z.eqb_refl. reflexivity.
Qed.

(** C9.  When the loop reaches a rule whose interval has elapsed but whose
    type [add_transaction] rejects, nothing is appended and the balance is
    unchanged, the only effect being the error message; yet the rule's
    ["last_added"] is set to the current time.  The rule is then not due at
    that time any more, and a later pass at which it is not due counting
    from the new ["last_added"] does nothing: the firing is not retried. *)
Theorem rejected_rule_still_advances :
  forall (w : World) (i : nat) (r : Recurring),
    nth_error (recurring_transactions (self w)) i = Some r ->
    due r (current_time w) = true ->
    accepted (rec_type r) = false ->
    let t := current_time w in
    let w' := exec (process_rule i) w in
    balance (self w') = balance (self w) /\
    transactions (self w') = transactions (self w) /\
    map effect (emitted_by (process_rule i) w)
      = [ StError invalid_type_message ] /\
    nth_error (recurring_transactions (self w')) i
      = Some (set_last_added t r) /\
    last_added (set_last_added t r) = t /\
    due (set_last_added t r) t = false /\
    (forall w2 : World,
        nth_error (recurring_transactions (self w2)) i
          = Some (set_last_added t r) ->
        due (set_last_added t r) (current_time w2) = false ->
        self (exec (process_rule i) w2) = self w2 /\
        emitted_by (process_rule i) w2 = []).
Proof.
  intros w i r Hr Hdue Hacc t w'.
  destruct (accepted_false _ Hacc) as [Hi He].
  pose proof (materialize_frame i r t (tick w)) as F.
  pose proof (add_transaction_invalid (rec_amount r) (rec_category r)
                (rec_type r) (tick w) Hi He) as Hrun.
  assert (Hw' : w' = exec (materialize i r t) (tick w)).
  { unfold w', exec. rewrite (process_rule_run i w r Hr), Hdue.
    reflexivity. }
  cbv zeta in F. rewrite <- Hw' in F. rewrite Hacc in F.
  unfold exec in F. rewrite Hrun in F.
  cbn [snd self shown tick] in F.
  destruct F as (F1 & F2 & F3 & F4 & _ & _).
  split; [exact F3 |].
  split; [rewrite F1; apply app_nil_r |].
  split.
  { rewrite (emitted_by_app (process_rule i) w _ F4). reflexivity. }
  split; [rewrite F2; apply update_at_nth; exact Hr |].
  split; [reflexivity |].
  split; [apply due_just_fired |].
  intros w2 Hr2 Hnot. unfold emitted_by, exec.
  rewrite (process_rule_run i w2 _ Hr2), Hnot.
  cbn [snd tick self shown]. split; [reflexivity | apply skipn_all].
Qed.

Lemma rejected_rule_still_advances_witness :
  nth_error (recurring_transactions (self gym_world)) 0 = Some gym_rule /\
  due gym_rule (current_time gym_world) = true /\
  accepted (rec_type gym_rule) = false /\
  transactions (self (exec (process_rule 0) gym_world)) = [] /\
  nth_error (recurring_transactions (self (exec (process_rule 0) gym_world))) 0
    = Some (set_last_added (mk_datetime 2024 1 9 7 30 0 0) gym_rule).
Proof.
  split; [reflexivity |]. split; [vm_compute; reflexivity |].
  split; [reflexivity |].
  destruct (rejected_rule_still_advances gym_world 0 gym_rule
              eq_refl eq_refl eq_refl) as (_ & Ht & _ & Hn & _).
  split; [exact Ht | exact Hn].
Defined.

(* ------------------------------------------------------------------ *)
(** ** One visit of a rule, and a whole pass *)

Lemma add_transaction_balance amt cat ty (w : World) :
  balance (self (exec (add_transaction amt cat ty) w)) =
  if accepted ty
  then (balance (self w)
        + signed_amount {| amount := amt; category := cat; type := ty |})%Q
  else balance (self w).
Proof.
  unfold exec, accepted, signed_amount. cbn [type amount].
  destruct (type_cases ty) as [H | [H | [Hi He]]].
  - rewrite (add_transaction_income _ _ _ _ H), H. reflexivity.
  - rewrite (add_transaction_expense _ _ _ _ H), H. reflexivity.
  - rewrite (add_transaction_invalid _ _ _ _ Hi He).
    destruct (String.eqb_spec (Py.lower ty) "income"); [contradiction |].
    destruct (String.eqb_spec (Py.lower ty) "expense"); [contradiction |].
    reflexivity.
Qed.

(** What the tracker and the clock of [w] become when the rule [r], found
    at index [i], is visited by the loop. *)
Lemma process_rule_spec (i : nat) (w : World) (r : Recurring) :
  nth_error (recurring_transactions (self w)) i = Some r ->
  let t := current_time w in
  let new := if due r t && accepted (rec_type r)
             then [transaction_of r] else [] in
  let w' := exec (process_rule i) w in
  recurring_transactions (self w') =
    (if due r t
     then update_at i (set_last_added t) (recurring_transactions (self w))
     else recurring_transactions (self w)) /\
  transactions (self w') = transactions (self w) ++ new /\
  balance (self w') =
    fold_left (fun b x => (b + signed_amount x)%Q) new (balance (self w)) /\
  balance_threshold (self w') = balance_threshold (self w) /\
  large_expense_threshold (self w') = large_expense_threshold (self w) /\
  wall_clock w' = wall_clock w /\
  clock_reads w' = S (clock_reads w).
Proof.
  intros Hr t new w'. unfold w', new, exec.
  rewrite (process_rule_run i w r Hr). fold t.
  destruct (due r t); cbn [andb].
  - destruct (materialize_frame i r t (tick w))
      as (F1 & F2 & F3 & _ & F5 & F6).
    destruct (add_transaction_frame (rec_amount r) (rec_category r)
                (rec_type r) (tick w)) as (_ & _ & G3 & G4 & _).
    pose proof (add_transaction_balance (rec_amount r) (rec_category r)
                  (rec_type r) (tick w)) as B.
    assert (T3 : balance_threshold
                   (self (exec (materialize i r t) (tick w)))
                 = balance_threshold (self w)).
    { etransitivity; [| exact G3].
      unfold exec, materialize, bind, modify_self.
      destruct (add_transaction _ _ _ (tick w)). reflexivity. }
    assert (T4 : large_expense_threshold
                   (self (exec (materialize i r t) (tick w)))
                 = large_expense_threshold (self w)).
    { etransitivity; [| exact G4].
      unfold exec, materialize, bind, modify_self.
      destruct (add_transaction _ _ _ (tick w)). reflexivity. }
    unfold exec in *. rewrite F1, F2, F3, B, T3, T4, F5, F6.
    cbn [tick self wall_clock clock_reads]. unfold transaction_of.
    destruct (accepted (rec_type r)); repeat split; reflexivity.
  - cbn [snd tick self wall_clock clock_reads fold_left].
    rewrite app_nil_r. repeat split; reflexivity.
Qed.

Lemma update_at_middle {A : Type} (f : A -> A) (done : list A) (x : A)
    (rest : list A) :
  update_at (List.length done) f (done ++ x :: rest) = done ++ f x :: rest.
Proof. induction done as [| y d IH]; simpl; [| rewrite IH]; reflexivity. Qed.

Lemma nth_error_middle {A : Type} (done : list A) (x : A) (rest : list A) :
  nth_error (done ++ x :: rest) (List.length done) = Some x.
Proof. induction done as [| y d IH]; simpl; auto. Qed.

(** The loop over the rules not yet visited, [todo], those already visited
    being [done]. *)
Lemma for_each_process_rule_spec (todo done : list Recurring) (w : World) :
  recurring_transactions (self w) = done ++ todo ->
  let clock := wall_clock w in
  let k := clock_reads w in
  let w' := exec (for_each (seq (List.length done) (List.length todo))
                           process_rule) w in
  recurring_transactions (self w') = done ++ advance clock k todo /\
  transactions (self w') = transactions (self w) ++ fired clock k todo /\
  balance (self w') =
    fold_left (fun b x => (b + signed_amount x)%Q) (fired clock k todo)
              (balance (self w)) /\
  balance_threshold (self w') = balance_threshold (self w) /\
  large_expense_threshold (self w') = large_expense_threshold (self w) /\
  wall_clock w' = wall_clock w /\
  clock_reads w' = (clock_reads w + List.length todo)%nat.
Proof.
  revert done w. induction todo as [| r rest IH]; intros done w Hrules.
  - cbv zeta. unfold exec.
    cbn [List.length seq for_each ret snd advance fired fold_left].
    rewrite app_nil_r in Hrules. rewrite !app_nil_r, Nat.add_0_r.
    repeat split; auto.
  - cbv zeta. cbn [List.length seq for_each advance fired].
    pose proof (process_rule_spec (List.length done) w r) as S1.
    rewrite Hrules, nth_error_middle in S1. specialize (S1 eq_refl).
    cbv zeta in S1. rewrite update_at_middle in S1.
    unfold exec in *. unfold bind.
    destruct (process_rule (List.length done) w) as [u w1].
    cbn [snd] in S1.
    destruct S1 as (R1 & R2 & R3 & R4 & R5 & R6 & R7).
    fold (current_time w) in *.
    set (r' := if due r (current_time w)
               then set_last_added (current_time w) r else r).
    assert (Hrules1 : recurring_transactions (self w1)
                      = (done ++ [r']) ++ rest).
    { rewrite R1, <- app_assoc. unfold r'.
      destruct (due r (current_time w)); reflexivity. }
    specialize (IH (done ++ [r']) w1 Hrules1). cbv zeta in IH.
    rewrite length_app, Nat.add_1_r in IH. cbn [List.length] in IH.
    destruct IH as (I1 & I2 & I3 & I4 & I5 & I6 & I7).
    rewrite R6, R7 in *.
    rewrite I1, I2, I3, I4, I5, I6, I7, R2, R3, R4, R5.
    rewrite <- !app_assoc, fold_left_app.
    repeat split; try reflexivity. lia.
Qed.

(** A whole pass, from the loop over all the rules. *)
Lemma pass_spec (w : World) :
  let clock := wall_clock w in
  let k := clock_reads w in
  let rules := recurring_transactions (self w) in
  let w' := exec process_recurring_transactions w in
  recurring_transactions (self w') = advance clock k rules /\
  transactions (self w') = transactions (self w) ++ fired clock k rules /\
  balance (self w') =
    fold_left (fun b x => (b + signed_amount x)%Q) (fired clock k rules)
              (balance (self w)) /\
  balance_threshold (self w') = balance_threshold (self w) /\
  large_expense_threshold (self w') = large_expense_threshold (self w) /\
  wall_clock w' = wall_clock w /\
  clock_reads w' = (clock_reads w + List.length rules)%nat.
Proof.
  exact (for_each_process_rule_spec (recurring_transactions (self w)) [] w
           eq_refl).
Qed.

Lemma advance_template (clock : nat -> datetime) (k : nat)
    (rules : list Recurring) :
  map template (advance clock k rules) = map template rules.
Proof.
  revert k. induction rules as [| r rest IH]; intros k; [reflexivity |].
  cbn [advance map]. rewrite IH. f_equal.
  destruct (due r (clock k)); reflexivity.
Qed.

(* ------------------------------------------------------------------ *)
(** ** At most one materialisation per rule and per call *)

Lemma add_recurring_transaction_run amt cat ty freq (w : World) :
  add_recurring_transaction amt cat ty freq w =
  let rule := {| rec_amount := amt; rec_category := cat; rec_type := ty;
                 frequency := freq; last_added := current_time w |} in
  let s' := set_recurring (recurring_transactions (self w) ++ [rule])
                          (self w) in
  (tt, {| self := s';
          shown := shown w ++
            [ {| effect :=
                   StSuccess (recurring_added_message ty amt cat freq);
                 at_state := s' |} ];
          wall_clock := wall_clock w;
          clock_reads := S (clock_reads w) |}).
Proof. reflexivity. Qed.

Lemma process_rule_bound (i : nat) (w : World) :
  let w' := exec (process_rule i) w in
  (List.length (transactions (self w'))
     <= S (List.length (transactions (self w))))%nat /\
  List.length (recurring_transactions (self w'))
    = List.length (recurring_transactions (self w)).
Proof.
  unfold exec.
  destruct (nth_error (recurring_transactions (self w)) i) as [r |] eqn:E.
  - rewrite (process_rule_run i w r E).
    destruct (due r (current_time w)).
    + destruct (materialize_frame i r (current_time w) (tick w))
        as (F1 & F2 & _).
      unfold exec in F1, F2. rewrite F1, F2, update_at_length, length_app.
      cbn [tick self]. destruct (accepted (rec_type r)); simpl; lia.
    + cbn [snd tick self]. lia.
  - rewrite (process_rule_out_of_range i w E). cbn [snd]. lia.
Qed.

Lemma for_each_process_rule_bound (l : list nat) (w : World) :
  (List.length (transactions (self (exec (for_each l process_rule) w)))
     <= List.length (transactions (self w)) + List.length l)%nat.
Proof.
  revert w. induction l as [| i r IH]; intros w.
  - cbn. lia.
  - unfold exec in *. cbn [for_each]. unfold bind.
    pose proof (process_rule_bound i w) as [B _]. unfold exec in B.
    destruct (process_rule i w) as [u w1]. cbn [snd] in B.
    specialize (IH w1). cbn [List.length]. lia.
Qed.

Lemma process_recurring_singleton (w : World) (r : Recurring) :
  recurring_transactions (self w) = [r] ->
  exec process_recurring_transactions w = exec (process_rule 0) w.
Proof.
  intros H. unfold exec, process_recurring_transactions, bind, read_self.
  rewrite H. cbn [List.length seq for_each]. unfold bind, ret.
  destruct (process_rule 0 w). reflexivity.
Qed.

(** The loop body on a daily rule with an accepted type, 25 hours after its
    last firing, and again 26 hours after that firing: the first visit
    appends the transaction of the rule, the second appends nothing,
    whatever else the tracker holds. *)
Lemma daily_rule_two_visits (w : World) (i : nat) (r : Recurring) :
  nth_error (recurring_transactions (self w)) i = Some r ->
  frequency r = "daily" ->
  accepted (rec_type r) = true ->
  sub (current_time w) (last_added r) = timedelta_hours 25 ->
  transactions (self (exec (process_rule i) w)) =
    transactions (self w) ++
      [ {| amount := rec_amount r; category := rec_category r;
           type := rec_type r |} ] /\
  nth_error (recurring_transactions (self (exec (process_rule i) w))) i
    = Some (set_last_added (current_time w) r) /\
  (forall w2 : World,
      nth_error (recurring_transactions (self w2)) i
        = Some (set_last_added (current_time w) r) ->
      sub (current_time w2) (last_added r) = timedelta_hours 26 ->
      transactions (self (exec (process_rule i) w2)) = transactions (self w2)).
Proof.
  intros Hr Hf Hacc H25. apply stamp_after_hours in H25.
  assert (Hdue : due r (current_time w) = true).
  { unfold due. rewrite Hf, days_sub.
    replace (stamp (current_time w) - stamp (last_added r))%Z
      with 90000000000%Z by lia.
    reflexivity. }
  destruct (materialize_frame i r (current_time w) (tick w))
    as (F1 & F2 & _).
  unfold exec in *. rewrite (process_rule_run i w r Hr), Hdue.
  rewrite F1, F2, Hacc. cbn [tick self].
  split; [reflexivity |]. split; [apply update_at_nth; exact Hr |].
  intros w2 Hr2 H26. apply stamp_after_hours in H26.
  rewrite (process_rule_run i w2 _ Hr2).
  assert (Hnot : due (set_last_added (current_time w) r) (current_time w2)
                 = false).
  { unfold due. cbn [frequency last_added set_last_added].
    rewrite Hf, days_sub.
    replace (stamp (current_time w2) - stamp (current_time w))%Z
      with 3600000000%Z by lia.
    reflexivity. }
  rewrite Hnot. reflexivity.
Qed.

Lemma fired_app (clock : nat -> datetime) (k : nat) (a b : list Recurring) :
  fired clock k (a ++ b)
    = fired clock k a ++ fired clock (k + List.length a) b.
Proof.
  revert k. induction a as [| r rest IH]; intros k.
  - cbn. rewrite Nat.add_0_r. reflexivity.
  - cbn [app fired List.length]. rewrite IH, <- app_assoc, Nat.add_succ_r.
    reflexivity.
Qed.

Lemma advance_app (clock : nat -> datetime) (k : nat) (a b : list Recurring) :
  advance clock k (a ++ b)
    = advance clock k a ++ advance clock (k + List.length a) b.
Proof.
  revert k. induction a as [| r rest IH]; intros k.
  - cbn. rewrite Nat.add_0_r. reflexivity.
  - cbn [app advance List.length]. rewrite IH, Nat.add_succ_r.
    reflexivity.
Qed.

Lemma advance_length (clock : nat -> datetime) (k : nat)
    (rules : list Recurring) :
  List.length (advance clock k rules) = List.length rules.
Proof.
  revert k. induction rules as [| r rest IH]; intros k; simpl; auto.
Qed.

(** What a pass appends is made of one list for each rule, in the order of
    the rules, each of them empty or holding the transaction of its rule. *)
Lemma fired_per_rule (clock : nat -> datetime) (k : nat)
    (rules : list Recurring) :
  exists per_rule : list (list Transaction),
    Forall2 (fun r c => c = [] \/ c = [transaction_of r]) rules per_rule /\
    fired clock k rules = List.concat per_rule.
Proof.
  revert k. induction rules as [| r rest IH]; intros k.
  - exists []. split; [constructor | reflexivity].
  - destruct (IH (S k)) as (per_rule & HF & HE).
    exists ((if due r (clock k) && accepted (rec_type r)
             then [transaction_of r] else []) :: per_rule).
    split.
    + constructor; [| exact HF].
      destruct (due r (clock k) && accepted (rec_type r)); auto.
    + cbn [fired List.concat]. rewrite HE. reflexivity.
Qed.

(** The two passes after the creation of a daily rule, on a tracker that
    may hold other rules: the new rule is the last of the list, so that it
    is judged against the last reading of each pass. *)
Lemma daily_rule_two_passes (w0 : World) (amt : Q) (cat ty : string) :
  accepted ty = true ->
  let clock := wall_clock w0 in
  let k := clock_reads w0 in
  let others := recurring_transactions (self w0) in
  let n := List.length others in
  let T := clock k in
  let t1 := clock (S k + n)%nat in
  let t2 := clock (S k + S n + n)%nat in
  sub t1 T = timedelta_hours 25 ->
  sub t2 T = timedelta_hours 26 ->
  let rule := {| rec_amount := amt; rec_category := cat; rec_type := ty;
                 frequency := "daily"; last_added := T |} in
  let w1 := exec (add_recurring_transaction amt cat ty "daily") w0 in
  let w2 := exec process_recurring_transactions w1 in
  let w3 := exec process_recurring_transactions w2 in
  recurring_transactions (self w1) = others ++ [rule] /\
  transactions (self w1) = transactions (self w0) /\
  transactions (self w2) =
    transactions (self w0) ++ fired clock (S k) others
      ++ [ {| amount := amt; category := cat; type := ty |} ] /\
  recurring_transactions (self w2) =
    advance clock (S k) others ++ [set_last_added t1 rule] /\
  transactions (self w3) =
    transactions (self w2)
      ++ fired clock (S k + S n) (advance clock (S k) others).
Proof.
  intros Hacc clock k others n T t1 t2 H25 H26 rule w1 w2 w3.
  apply stamp_after_hours in H25. apply stamp_after_hours in H26.
  assert (Hdue1 : due rule t1 = true).
  { unfold due. cbn [frequency last_added rule]. rewrite days_sub.
    replace (stamp t1 - stamp T)%Z with 90000000000%Z by lia.
    reflexivity. }
  assert (Hdue2 : due (set_last_added t1 rule) t2 = false).
  { unfold due. cbn [frequency last_added set_last_added rule].
    rewrite days_sub.
    replace (stamp t2 - stamp t1)%Z with 3600000000%Z by lia.
    reflexivity. }
  (* the world after the rule is created *)
  assert (R1 : recurring_transactions (self w1) = others ++ [rule])
    by reflexivity.
  assert (T1 : transactions (self w1) = transactions (self w0))
    by reflexivity.
  assert (C1 : wall_clock w1 = clock) by reflexivity.
  assert (K1 : clock_reads w1 = S k) by reflexivity.
  (* first pass *)
  destruct (pass_spec w1) as (P1 & P2 & _ & _ & _ & P6 & P7).
  fold w2 in P1, P2, P6, P7.
  rewrite R1, C1, K1 in P1, P2. rewrite C1 in P6. rewrite R1, K1 in P7.
  rewrite advance_app in P1. rewrite fired_app in P2.
  fold n in P1, P2. cbn [advance fired] in P1, P2. fold t1 in P1, P2.
  rewrite Hdue1 in P1, P2. cbn [rec_type rule] in P2.
  rewrite Hacc in P2. cbn [andb app] in P2.
  rewrite T1 in P2.
  (* second pass *)
  destruct (pass_spec w2) as (_ & Q2 & _).
  fold w3 in Q2. rewrite P1, P6, P7 in Q2.
  rewrite fired_app, advance_length in Q2. fold n in Q2.
  rewrite length_app in Q2. cbn [List.length] in Q2. fold n in Q2.
  replace (S k + (n + 1) + n)%nat with (S k + S n + n)%nat in Q2 by lia.
  replace (S k + (n + 1))%nat with (S k + S n)%nat in Q2 by lia.
  cbn [fired] in Q2. fold t2 in Q2. rewrite Hdue2 in Q2.
  cbn [andb app] in Q2. rewrite app_nil_r in Q2.
  repeat split; assumption.
Qed.

(** C7, as stated, fails: a daily rule created with the type ["transfer"]
    is due 25 hours later, but [add_transaction] rejects it, so that no
    transaction at all is materialised over the two passes. *)
Lemma daily_rule_with_rejected_type_fires_never :
  ~ (sub (coffee_clock 1) (coffee_clock 0) = timedelta_hours 25 ->
     sub (coffee_clock 2) (coffee_clock 0) = timedelta_hours 26 ->
     List.length (transactions (self transfer_second_pass))
       = S (List.length (transactions (self coffee_start)))).
Proof.
  intros H. specialize (H eq_refl eq_refl). vm_compute in H. discriminate H.
Qed.

(** C7, amended.  A daily rule with a type that [add_transaction] accepts,
    created at time [T]: the pass in which it is judged 25 hours after [T]
    appends its transaction, once, after what the other rules of the tracker
    materialise, and sets its ["last_added"]; the pass that follows, in
    which it is judged 26 hours after [T], appends nothing for it, so that
    exactly one transaction is materialised for the rule over the two
    passes (stated for two visits of the rule, for the two whole passes on
    any tracker, and for a tracker without other rules).  In general one
    visit of a rule appends at most one transaction, and a whole pass
    appends, for each rule in turn, either nothing or the one transaction
    of that rule, however long ago the rules fired last. *)
Theorem daily_rule_fires_once :
  (forall (w : World) (i : nat) (r : Recurring),
      nth_error (recurring_transactions (self w)) i = Some r ->
      frequency r = "daily" ->
      accepted (rec_type r) = true ->
      sub (current_time w) (last_added r) = timedelta_hours 25 ->
      transactions (self (exec (process_rule i) w)) =
        transactions (self w) ++
          [ {| amount := rec_amount r; category := rec_category r;
               type := rec_type r |} ] /\
      nth_error (recurring_transactions (self (exec (process_rule i) w))) i
        = Some (set_last_added (current_time w) r) /\
      forall w2 : World,
        nth_error (recurring_transactions (self w2)) i
          = Some (set_last_added (current_time w) r) ->
        sub (current_time w2) (last_added r) = timedelta_hours 26 ->
        transactions (self (exec (process_rule i) w2))
          = transactions (self w2)) /\
  (forall (w : World) (i : nat),
      (List.length (transactions (self (exec (process_rule i) w)))
         <= S (List.length (transactions (self w))))%nat) /\
  (forall (w : World),
      let rules := recurring_transactions (self w) in
      let w' := exec process_recurring_transactions w in
      transactions (self w') =
        transactions (self w)
          ++ fired (wall_clock w) (clock_reads w) rules /\
      (exists per_rule : list (list Transaction),
          Forall2 (fun r c => c = [] \/ c = [transaction_of r])
                  rules per_rule /\
          transactions (self w')
            = transactions (self w) ++ List.concat per_rule)
      /\
      (List.length (transactions (self w'))
         <= List.length (transactions (self w)) + List.length rules)%nat) /\
  (forall (w0 : World) (amt : Q) (cat ty : string),
      accepted ty = true ->
      let clock := wall_clock w0 in
      let k := clock_reads w0 in
      let others := recurring_transactions (self w0) in
      let n := List.length others in
      let T := clock k in
      let t1 := clock (S k + n)%nat in
      let t2 := clock (S k + S n + n)%nat in
      sub t1 T = timedelta_hours 25 ->
      sub t2 T = timedelta_hours 26 ->
      let rule := {| rec_amount := amt; rec_category := cat; rec_type := ty;
                     frequency := "daily"; last_added := T |} in
      let w1 := exec (add_recurring_transaction amt cat ty "daily") w0 in
      let w2 := exec process_recurring_transactions w1 in
      let w3 := exec process_recurring_transactions w2 in
      recurring_transactions (self w1) = others ++ [rule] /\
      transactions (self w1) = transactions (self w0) /\
      transactions (self w2) =
        transactions (self w0) ++ fired clock (S k) others
          ++ [ {| amount := amt; category := cat; type := ty |} ] /\
      recurring_transactions (self w2) =
        advance clock (S k) others ++ [set_last_added t1 rule] /\
      transactions (self w3) =
        transactions (self w2)
          ++ fired clock (S k + S n) (advance clock (S k) others)) /\
  (forall (w0 : World) (amt : Q) (cat ty : string),
      recurring_transactions (self w0) = [] ->
      accepted ty = true ->
      let T := wall_clock w0 (clock_reads w0) in
      sub (wall_clock w0 (S (clock_reads w0))) T = timedelta_hours 25 ->
      sub (wall_clock w0 (S (S (clock_reads w0)))) T = timedelta_hours 26 ->
      let w1 := exec (add_recurring_transaction amt cat ty "daily") w0 in
      let w2 := exec process_recurring_transactions w1 in
      let w3 := exec process_recurring_transactions w2 in
      transactions (self w1) = transactions (self w0) /\
      transactions (self w2) =
        transactions (self w0) ++
          [ {| amount := amt; category := cat; type := ty |} ] /\
      transactions (self w3) = transactions (self w2)).
Proof.
  split; [| split; [| split; [| split]]].
  - intros w i r Hr Hf Hacc H25.
    exact (daily_rule_two_visits w i r Hr Hf Hacc H25).
  - intros w i. apply (process_rule_bound i w).
  - intros w rules w'.
    destruct (pass_spec w) as (_ & P2 & _). fold rules in P2. fold w' in P2.
    split; [exact P2 |]. split.
    + destruct (fired_per_rule (wall_clock w) (clock_reads w) rules)
        as (per_rule & HF & HE).
      exists per_rule. split; [exact HF |]. rewrite P2, HE. reflexivity.
    + unfold w', rules, exec, process_recurring_transactions, bind, read_self.
      pose proof (for_each_process_rule_bound
                    (seq 0 (List.length (recurring_transactions (self w)))) w)
        as B.
      rewrite length_seq in B. exact B.
  - intros w0 amt cat ty Hacc. exact (daily_rule_two_passes w0 amt cat ty Hacc).
  - intros w0 amt cat ty Hnone Hacc T H25 H26 w1 w2 w3.
    set (t1 := wall_clock w0 (S (clock_reads w0))) in *.
    set (t2 := wall_clock w0 (S (S (clock_reads w0)))) in *.
    set (rule := {| rec_amount := amt; rec_category := cat; rec_type := ty;
                    frequency := "daily"; last_added := T |}).
    apply stamp_after_hours in H25. apply stamp_after_hours in H26.
    (* the world after the rule is created *)
    assert (E1 : w1 = {| self := set_recurring [rule] (self w0);
                         shown := shown w1;
                         wall_clock := wall_clock w0;
                         clock_reads := S (clock_reads w0) |}).
    { unfold w1, exec. rewrite add_recurring_transaction_run.
      cbn [snd shown]. rewrite Hnone. reflexivity. }
    (* first pass: the rule is due *)
    assert (Hdue1 : due rule (current_time w1) = true).
    { rewrite E1. unfold current_time. cbn [wall_clock clock_reads].
      fold t1. unfold due. cbn [frequency last_added rule].
      rewrite days_sub.
      replace (stamp t1 - stamp T)%Z with 90000000000%Z by lia.
      reflexivity. }
    assert (Hr1 : nth_error (recurring_transactions (self w1)) 0 = Some rule).
    { rewrite E1. reflexivity. }
    assert (E2 : w2 = exec (materialize 0 rule (current_time w1)) (tick w1)).
    { unfold w2. rewrite (process_recurring_singleton w1 rule).
      - unfold exec. rewrite (process_rule_run 0 w1 rule Hr1), Hdue1.
        reflexivity.
      - rewrite E1. reflexivity. }
    assert (Ht1 : current_time w1 = t1).
    { rewrite E1. reflexivity. }
    rewrite Ht1 in E2.
    destruct (materialize_frame 0 rule t1 (tick w1))
      as (F1 & F2 & _ & _ & F5 & F6).
    rewrite <- E2 in F1, F2, F5, F6.
    cbn [rec_amount rec_category rec_type rule tick self wall_clock
         clock_reads] in F1, F2, F5, F6.
    rewrite Hacc in F1.
    assert (Hrec1 : recurring_transactions (self w1) = [rule]).
    { rewrite E1. reflexivity. }
    assert (Htx1 : transactions (self w1) = transactions (self w0)).
    { rewrite E1. reflexivity. }
    rewrite Hrec1 in F2. cbn [update_at] in F2.
    (* second pass: the rule, fired at [t1], is not due at [t2] *)
    assert (Hclock2 : current_time w2 = t2).
    { unfold current_time. rewrite F5, F6, E1. reflexivity. }
    assert (Hdue2 : due (set_last_added t1 rule) (current_time w2) = false).
    { rewrite Hclock2. unfold due.
      cbn [frequency last_added set_last_added rule].
      rewrite days_sub.
      replace (stamp t2 - stamp t1)%Z with 3600000000%Z by lia.
      reflexivity. }
    assert (E3 : w3 = tick w2).
    { unfold w3. rewrite (process_recurring_singleton w2 _ F2).
      unfold exec. rewrite (process_rule_run 0 w2 (set_last_added t1 rule)).
      - rewrite Hdue2. reflexivity.
      - rewrite F2. reflexivity. }
    split; [exact Htx1 |]. split.
    + rewrite F1, Htx1. reflexivity.
    + rewrite E3. reflexivity.
Qed.

Lemma daily_rule_fires_once_witness :
  (recurring_transactions (self coffee_start) = [] /\
   accepted "expense" = true /\
   sub (coffee_clock 1) (coffee_clock 0) = timedelta_hours 25 /\
   sub (coffee_clock 2) (coffee_clock 0) = timedelta_hours 26 /\
   transactions (self coffee_first_pass) =
     [ {| amount := 15; category := "Coffee"; type := "expense" |} ] /\
   transactions (self coffee_second_pass) =
     transactions (self coffee_first_pass)) /\
  (nth_error (recurring_transactions (self coffee_created)) 0
     = Some (mk_recurring 15 "Coffee" "expense" "daily" (coffee_clock 0)) /\
   sub (current_time coffee_created) (coffee_clock 0) = timedelta_hours 25 /\
   transactions (self (exec (process_rule 0) coffee_created)) =
     [ {| amount := 15; category := "Coffee"; type := "expense" |} ]) /\
  (sub (shared_clock 2) (shared_clock 0) = timedelta_hours 25 /\
   sub (shared_clock 4) (shared_clock 0) = timedelta_hours 26 /\
   map category (transactions (self shared_first_pass))
     = [ "Rent"; "Coffee" ] /\
   transactions (self shared_second_pass)
     = transactions (self shared_first_pass)).
Proof.
  split; [| split].
  - split; [reflexivity |]. split; [reflexivity |].
    split; [reflexivity |]. split; [reflexivity |].
    destruct (proj2 (proj2 (proj2 (proj2 daily_rule_fires_once)))
                coffee_start 15%Q "Coffee" "expense"
                eq_refl eq_refl eq_refl eq_refl) as (_ & H2 & H3).
    split; [exact H2 | exact H3].
  - split; [reflexivity |]. split; [reflexivity |].
    destruct (proj1 daily_rule_fires_once coffee_created 0%nat
                (mk_recurring 15 "Coffee" "expense" "daily" (coffee_clock 0))
                eq_refl eq_refl eq_refl eq_refl) as (H1 & _).
    exact H1.
  - split; [reflexivity |]. split; [reflexivity |].
    destruct (proj1 (proj2 (proj2 (proj2 daily_rule_fires_once)))
                shared_start 15%Q "Coffee" "expense"
                eq_refl eq_refl eq_refl) as (_ & _ & H2 & _ & H3).
    split.
    + unfold shared_first_pass. rewrite H2. reflexivity.
    + unfold shared_second_pass, shared_first_pass. rewrite H3.
      apply app_nil_r.
Defined.

(* ------------------------------------------------------------------ *)
(** ** A monthly rule, twelve months later *)

(** C6.  A monthly rule last fired on 2023-12-15 and evaluated exactly
    twelve months later, on 2024-12-15, is not materialised: the pass reads
    the clock and changes nothing else, although 366 days have elapsed.  The
    same rule with the frequency ["daily"] or ["weekly"] is materialised at
    that date. *)
Theorem monthly_rule_skipped_a_year_later :
  days (sub december_2024 december_2023) = 366%Z /\
  due (rent_rule "monthly") december_2024 = false /\
  exec process_recurring_transactions (rent_world "monthly")
    = tick (rent_world "monthly") /\
  transactions
    (self (exec process_recurring_transactions (rent_world "monthly"))) = [] /\
  map type
    (transactions
       (self (exec process_recurring_transactions (rent_world "daily"))))
    = [ "expense" ] /\
  map type
    (transactions
       (self (exec process_recurring_transactions (rent_world "weekly"))))
    = [ "expense" ].
Proof. vm_compute. repeat split. Qed.

(* ------------------------------------------------------------------ *)
(** ** The signed column of [visualize_data] *)

(** On a history whose types are stored in lower case, as the user
    interface passes them, the column computed at line 95 holds the signed
    amounts. *)
Lemma signed_column_lower_case (l : list Transaction) :
  Forall (fun t => Py.lower (type t) = type t) l ->
  signed_column l = map signed_amount l.
Proof.
  induction 1 as [| t r Ht _ IH]; [reflexivity |].
  unfold signed_column in *. cbn [map]. rewrite IH. f_equal.
  unfold signed_amount. rewrite Ht. reflexivity.
Qed.

(** The column does not follow [add_transaction] on a type written with an
    upper-case letter: the amount of such an expense is left positive. *)
Example signed_column_mixed_case :
  signed_column [ {| amount := 600; category := "Rent"; type := "Expense" |} ]
    = [ 600%Q ] /\
  signed_amount {| amount := 600; category := "Rent"; type := "Expense" |}
    = (- (600))%Q.
Proof. split; reflexivity. Qed.

(* ================================================================== *)
(** * Further properties of the class *)

(* ------------------------------------------------------------------ *)
(** ** A whole pass *)

(** X1.  A pass of [process_recurring_transactions] reads the clock once
    for each rule, in the order of the list, and leaves the rules as
    [advance] describes them: a rule that is due at its reading takes that
    reading as its ["last_added"], and nothing else changes in the list. *)
Theorem pass_advances_the_due_rules :
  forall (w : World),
    let w' := exec process_recurring_transactions w in
    recurring_transactions (self w') =
      advance (wall_clock w) (clock_reads w)
              (recurring_transactions (self w)) /\
    map template (recurring_transactions (self w'))
      = map template (recurring_transactions (self w)) /\
    clock_reads w' =
      (clock_reads w + List.length (recurring_transactions (self w)))%nat /\
    wall_clock w' = wall_clock w.
Proof.
  intros w w'.
  destruct (pass_spec w) as (H1 & _ & _ & _ & _ & H6 & H7).
  fold w' in H1, H6, H7.
  split; [exact H1 |]. split; [| split; [exact H7 | exact H6]].
  rewrite H1. apply advance_template.
Qed.

(** X2.  A pass appends to the history the transactions of the rules that
    are due and whose type is accepted, in the order of the rules, and
    moves the balance by their signed amounts, one after the other; the
    entries already recorded and the two thresholds are left as they
    were. *)
Theorem pass_appends_the_fired_rules :
  forall (w : World),
    let w' := exec process_recurring_transactions w in
    let new := fired (wall_clock w) (clock_reads w)
                     (recurring_transactions (self w)) in
    transactions (self w') = transactions (self w) ++ new /\
    balance (self w') =
      fold_left (fun b x => (b + signed_amount x)%Q) new (balance (self w)) /\
    balance_threshold (self w') = balance_threshold (self w) /\
    large_expense_threshold (self w') = large_expense_threshold (self w).
Proof.
  intros w w' new.
  destruct (pass_spec w) as (_ & H2 & H3 & H4 & H5 & _).
  repeat split; assumption.
Qed.

(* ------------------------------------------------------------------ *)
(** ** Passes in which nothing is due *)

Lemma for_each_nothing_due (todo done : list Recurring) (w : World) :
  recurring_transactions (self w) = done ++ todo ->
  (forall r k, In r todo -> due r (wall_clock w k) = false) ->
  exec (for_each (seq (List.length done) (List.length todo)) process_rule) w
  = {| self := self w; shown := shown w; wall_clock := wall_clock w;
       clock_reads := (clock_reads w + List.length todo)%nat |}.
Proof.
  revert done w. induction todo as [| r rest IH]; intros done w Hrules Hnot.
  - unfold exec. cbn [List.length seq for_each ret snd].
    rewrite Nat.add_0_r. destruct w; reflexivity.
  - unfold exec in *. cbn [List.length seq for_each]. unfold bind.
    rewrite (process_rule_run (List.length done) w r)
      by (rewrite Hrules; apply nth_error_middle).
    unfold current_time. rewrite (Hnot r _ (or_introl eq_refl)).
    specialize (IH (done ++ [r]) (tick w)).
    rewrite length_app, Nat.add_1_r in IH. cbn [List.length] in IH.
    rewrite IH.
    + cbn [tick self shown wall_clock clock_reads]. f_equal. lia.
    + cbn [tick self]. rewrite Hrules, <- app_assoc. reflexivity.
    + intros r0 k Hin. cbn [tick wall_clock]. apply Hnot. right. exact Hin.
Qed.

Lemma pass_nothing_due (w : World) :
  (forall r k, In r (recurring_transactions (self w)) ->
               due r (wall_clock w k) = false) ->
  exec process_recurring_transactions w
  = {| self := self w; shown := shown w; wall_clock := wall_clock w;
       clock_reads :=
         (clock_reads w + List.length (recurring_transactions (self w)))%nat |}.
Proof.
  intros Hnot.
  apply (for_each_nothing_due (recurring_transactions (self w)) [] w eq_refl
           Hnot).
Qed.

Lemma advance_frozen_not_due (clock : nat -> datetime) (t : datetime)
    (k : nat) (rules : list Recurring) (r : Recurring) :
  (forall j, clock j = t) ->
  In r (advance clock k rules) -> due r t = false.
Proof.
  intros Hclock. revert k. induction rules as [| r0 rest IH]; intros k Hin.
  - destruct Hin.
  - cbn [advance] in Hin. destruct Hin as [<- | Hin]; [| apply (IH _ Hin)].
    rewrite Hclock. destruct (due r0 t) eqn:E; [apply due_just_fired | exact E].
Qed.

(** X3.  While the clock stands still, a second pass of
    [process_recurring_transactions] changes nothing in the tracker and
    shows nothing: every rule that the first pass fired has that instant as
    its ["last_added"] and is not due at it. *)
Theorem second_pass_at_the_same_instant :
  forall (w : World) (t : datetime),
    (forall k, wall_clock w k = t) ->
    let once := exec process_recurring_transactions w in
    self (exec process_recurring_transactions once) = self once /\
    emitted_by process_recurring_transactions once = [].
Proof.
  intros w t Hclock once.
  destruct (pass_spec w) as (Hrules & _ & _ & _ & _ & Hwall & _).
  fold once in Hrules, Hwall.
  assert (Hrun := pass_nothing_due once).
  rewrite Hrun.
  - split; [reflexivity |]. unfold emitted_by. rewrite Hrun.
    + cbn [shown]. apply skipn_all.
    + intros r k Hin. rewrite Hwall, Hclock.
      rewrite Hrules in Hin.
      apply (advance_frozen_not_due _ _ _ _ _ Hclock Hin).
  - intros r k Hin. rewrite Hwall, Hclock.
    rewrite Hrules in Hin.
    apply (advance_frozen_not_due _ _ _ _ _ Hclock Hin).
Qed.

Lemma second_pass_at_the_same_instant_witness :
  (forall k, wall_clock (rent_world "daily") k = december_2024) /\
  map type
    (transactions
       (self (exec process_recurring_transactions (rent_world "daily"))))
    = [ "expense" ] /\
  self (exec process_recurring_transactions
          (exec process_recurring_transactions (rent_world "daily")))
    = self (exec process_recurring_transactions (rent_world "daily")).
Proof.
  assert (H : forall k, wall_clock (rent_world "daily") k = december_2024)
    by (intros k; reflexivity).
  split; [exact H |]. split; [reflexivity |].
  apply (second_pass_at_the_same_instant (rent_world "daily") december_2024 H).
Defined.

(* ------------------------------------------------------------------ *)
(** ** When a rule is due *)

(** X4.  The frequency is compared as it is written: a rule whose frequency
    is none of ["daily"], ["weekly"], ["monthly"] (for instance ["Daily"])
    is never due, and a visit of it changes nothing in the tracker and
    shows nothing, whatever the clock reads. *)
Theorem unknown_frequency_never_fires :
  forall (w : World) (i : nat) (r : Recurring),
    nth_error (recurring_transactions (self w)) i = Some r ->
    frequency r <> "daily" ->
    frequency r <> "weekly" ->
    frequency r <> "monthly" ->
    (forall t, due r t = false) /\
    self (exec (process_rule i) w) = self w /\
    emitted_by (process_rule i) w = [].
Proof.
  intros w i r Hr Hd Hw Hm.
  assert (Hnot : forall t, due r t = false).
  { intros t. unfold due.
    destruct (String.eqb_spec (frequency r) "daily"); [contradiction |].
    destruct (String.eqb_spec (frequency r) "weekly"); [contradiction |].
    destruct (String.eqb_spec (frequency r) "monthly"); [contradiction |].
    reflexivity. }
  split; [exact Hnot |].
  unfold emitted_by, exec. rewrite (process_rule_run i w r Hr), Hnot.
  cbn [snd tick self shown]. split; [reflexivity | apply skipn_all].
Qed.

Lemma unknown_frequency_never_fires_witness :
  nth_error (recurring_transactions (self (rent_world "Daily"))) 0
    = Some (rent_rule "Daily") /\
  "Daily" <> "daily" /\ "Daily" <> "weekly" /\ "Daily" <> "monthly" /\
  self (exec (process_rule 0) (rent_world "Daily"))
    = self (rent_world "Daily").
Proof.
  assert (Hd : frequency (rent_rule "Daily") <> "daily") by discriminate.
  assert (Hw : frequency (rent_rule "Daily") <> "weekly") by discriminate.
  assert (Hm : frequency (rent_rule "Daily") <> "monthly") by discriminate.
  split; [reflexivity |]. split; [exact Hd |]. split; [exact Hw |].
  split; [exact Hm |].
  apply (unknown_frequency_never_fires (rent_world "Daily") 0
           (rent_rule "Daily") eq_refl Hd Hw Hm).
Defined.

(** X5.  A daily rule is due exactly when 24 full hours have elapsed since
    its ["last_added"], and a weekly rule exactly when 7 times 24 hours
    have: the test counts whole days of the difference, not changes of the
    calendar day, and a clock read before ["last_added"] never makes the
    rule due. *)
Theorem whole_days_must_elapse :
  forall (r : Recurring) (t : datetime),
    (frequency r = "daily" ->
     (due r t = true <->
      86400000000 <= total_microseconds (sub t (last_added r)))) /\
    (frequency r = "weekly" ->
     (due r t = true <->
      604800000000 <= total_microseconds (sub t (last_added r)))).
Proof.
  intros r t. rewrite total_microseconds_sub. unfold due. rewrite days_sub.
  set (d := (stamp t - stamp (last_added r))%Z).
  split; intros ->; cbn [String.eqb Ascii.eqb Bool.eqb andb orb].
  - rewrite !orb_false_r, Z.geb_le. split; intros H.
    + Z.div_mod_to_equations. lia.
    + Z.div_mod_to_equations. lia.
  - rewrite !orb_false_r, Z.geb_le. split; intros H.
    + Z.div_mod_to_equations. lia.
    + Z.div_mod_to_equations. lia.
Qed.

Lemma whole_days_must_elapse_witness :
  frequency (rent_rule "daily") = "daily" /\
  due (rent_rule "daily") december_2024 = true /\
  86400000000
    <= total_microseconds (sub december_2024 (last_added (rent_rule "daily")))
  /\
  frequency gym_rule = "weekly" /\
  due gym_rule (mk_datetime 2024 1 8 7 59 59 999999) = false.
Proof.
  split; [reflexivity |]. split; [reflexivity |].
  split.
  - apply (proj1 (whole_days_must_elapse (rent_rule "daily") december_2024)
             eq_refl).
    reflexivity.
  - split; [reflexivity |].
    destruct (due gym_rule (mk_datetime 2024 1 8 7 59 59 999999)) eqn:E;
      [| reflexivity].
    apply (proj2 (whole_days_must_elapse gym_rule
                    (mk_datetime 2024 1 8 7 59 59 999999)) eq_refl) in E.
    vm_compute in E. exfalso. apply E. reflexivity.
Defined.

(** X6.  A monthly rule follows the number of the month alone.  Visited in
    a month with another number than that of its ["last_added"], it fires,
    however little time has elapsed; visited in a month with the same
    number, it is left as it is and nothing is appended, however many years
    have elapsed. *)
Theorem monthly_rule_follows_month_number :
  forall (w : World) (i : nat) (r : Recurring),
    nth_error (recurring_transactions (self w)) i = Some r ->
    frequency r = "monthly" ->
    let t := current_time w in
    let w' := exec (process_rule i) w in
    (month t <> month (last_added r) ->
     nth_error (recurring_transactions (self w')) i
       = Some (set_last_added t r) /\
     transactions (self w') =
       transactions (self w) ++
         (if accepted (rec_type r) then [transaction_of r] else [])) /\
    (month t = month (last_added r) ->
     self w' = self w /\ emitted_by (process_rule i) w = []).
Proof.
  intros w i r Hr Hf t w'.
  destruct (process_rule_spec i w r Hr) as (R1 & R2 & _).
  fold t in R1, R2. fold w' in R1, R2.
  split.
  - intros Hm.
    assert (Hdue : due r t = true).
    { unfold due. rewrite Hf. cbn [String.eqb Ascii.eqb Bool.eqb andb orb].
      apply Z.eqb_neq in Hm. rewrite Hm. reflexivity. }
    rewrite Hdue in R1, R2. cbn [andb] in R2. rewrite R1, R2.
    split; [apply update_at_nth; exact Hr | reflexivity].
  - intros Hm.
    pose proof (monthly_same_month_not_due r t Hf Hm) as Hnot.
    unfold w', emitted_by, exec. rewrite (process_rule_run i w r Hr).
    fold t. rewrite Hnot. cbn [snd tick self shown].
    split; [reflexivity | apply skipn_all].
Qed.

Lemma monthly_rule_follows_month_number_witness :
  (nth_error (recurring_transactions (self (rent_world "monthly"))) 0
     = Some (rent_rule "monthly") /\
   frequency (rent_rule "monthly") = "monthly" /\
   month (current_time (rent_world "monthly"))
     = month (last_added (rent_rule "monthly")) /\
   self (exec (process_rule 0) (rent_world "monthly"))
     = self (rent_world "monthly")) /\
  (month midnight <> month (last_added (rent_rule "monthly")) /\
   map type
     (transactions
        (self (exec (process_rule 0)
                 (world_of (set_recurring [rent_rule "monthly"] init)
                           (fun _ => midnight) 0))))
     = [ "expense" ]).
Proof.
  split.
  - split; [reflexivity |]. split; [reflexivity |]. split; [reflexivity |].
    apply (proj2 (monthly_rule_follows_month_number (rent_world "monthly") 0
                    (rent_rule "monthly") eq_refl eq_refl) eq_refl).
  - assert (Hm : month midnight <> month (last_added (rent_rule "monthly")))
      by discriminate.
    split; [exact Hm |].
    destruct (proj1 (monthly_rule_follows_month_number
                       (world_of (set_recurring [rent_rule "monthly"] init)
                                 (fun _ => midnight) 0)
                       0 (rent_rule "monthly") eq_refl eq_refl) Hm)
      as [_ Ht].
    rewrite Ht. reflexivity.
Defined.

(* ------------------------------------------------------------------ *)
(** ** What one call of [add_transaction] shows *)

(** X7.  A call of [add_transaction] shows exactly one message of the user
    interface, a success when the type is accepted and the error when it is
    not, and at most two notifications: at most one large-expense alert,
    issued before the message, and at most one low-balance alert, issued
    after it, and nothing else. *)
Theorem one_message_and_at_most_two_alerts :
  forall (w : World) (amt : Q) (cat ty : string),
    let out := emitted_by (add_transaction amt cat ty) w in
    map effect (ui_messages out) =
      [ if accepted ty then StSuccess (added_message ty amt cat)
        else StError invalid_type_message ] /\
    out = large_expense_alerts out ++ ui_messages out
            ++ low_balance_alerts out /\
    notifications out = large_expense_alerts out ++ low_balance_alerts out /\
    (List.length (large_expense_alerts out) <= 1)%nat /\
    (List.length (low_balance_alerts out) <= 1)%nat.
Proof.
  intros w amt cat ty out. unfold out, accepted.
  destruct (type_cases ty) as [H | [H | [Hi He]]].
  - rewrite (emitted_by_income _ _ _ _ H), H. unfold recorded_effects.
    destruct (Py.lt _ _); cbn; repeat split; auto.
  - rewrite (emitted_by_expense _ _ _ _ H), H.
    unfold recorded_effects, large_expense_effects.
    destruct (Py.gt _ _); destruct (Py.lt _ _); cbn; repeat split; auto.
  - rewrite (emitted_by_app _ w
               [ {| effect := StError invalid_type_message;
                    at_state := self w |} ]).
    + destruct (String.eqb_spec (Py.lower ty) "income"); [contradiction |].
      destruct (String.eqb_spec (Py.lower ty) "expense"); [contradiction |].
      cbn. repeat split; auto.
    + unfold exec. rewrite (add_transaction_invalid _ _ _ _ Hi He).
      reflexivity.
Qed.

(* ------------------------------------------------------------------ *)
(** ** The listing after a call, and the kind it displays *)

Lemma enumerate_snoc {A : Type} (l : list A) (x : A) (start : Z) :
  enumerate (l ++ [x]) start
    = enumerate l start ++ [ ((start + Z.of_nat (List.length l))%Z, x) ].
Proof.
  revert start. induction l as [| y r IH]; intros start.
  - cbn. rewrite Z.add_0_r. reflexivity.
  - cbn [app enumerate List.length]. rewrite IH, Nat2Z.inj_succ.
    replace (start + 1 + Z.of_nat (List.length r))%Z
      with (start + Z.succ (Z.of_nat (List.length r)))%Z by lia.
    reflexivity.
Qed.

Lemma transaction_list_snoc (l : list Transaction) (t : Transaction) :
  transaction_list (l ++ [t])
    = transaction_list l
        ++ [ transaction_line (Z.of_nat (List.length l) + 1) t ].
Proof.
  unfold transaction_list. rewrite enumerate_snoc, map_app.
  cbn [map fst snd]. rewrite (Z.add_comm 1). reflexivity.
Qed.

Lemma view_transactions_eval (w : World) :
  eval view_transactions w =
  match transactions (self w) with
  | [] => "No transactions recorded."
  | _ :: _ => Py.join newline (transaction_list (transactions (self w)))
  end.
Proof.
  unfold eval, view_transactions, bind, read_self, ret.
  destruct (transactions (self w)); reflexivity.
Qed.

(** X8.  After a call of [add_transaction] with an accepted type, the
    listing of [view_transactions] is the former list of lines followed by
    one line for the new transaction, numbered with the new length of the
    history; after a call with a rejected type the report is what it was. *)
Theorem listing_grows_by_one_line :
  forall (w : World) (amt : Q) (cat ty : string),
    let w' := exec (add_transaction amt cat ty) w in
    let n := List.length (transactions (self w)) in
    (accepted ty = true ->
     eval view_transactions w' =
       Py.join newline
         (transaction_list (transactions (self w))
            ++ [ transaction_line (Z.of_nat n + 1)
                   {| amount := amt; category := cat; type := ty |} ])) /\
    (accepted ty = false ->
     eval view_transactions w' = eval view_transactions w).
Proof.
  intros w amt cat ty w' n.
  destruct (add_transaction_frame amt cat ty w) as (F1 & _).
  fold w' in F1. rewrite !view_transactions_eval, F1. clear F1.
  split; intros Hacc; rewrite Hacc.
  - rewrite <- transaction_list_snoc.
    destruct (transactions (self w) ++ _) eqn:E; [| reflexivity].
    apply app_eq_nil in E as [_ E]. discriminate E.
  - rewrite app_nil_r. reflexivity.
Qed.

Lemma listing_grows_by_one_line_witness :
  accepted "expense" = true /\
  eval view_transactions scenario_after_rent =
    Py.join newline
      (transaction_list (transactions (self scenario_after_salary))
         ++ [ "2. Expense: $600.00 (Rent)" ]) /\
  accepted "transfer" = false /\
  eval view_transactions (exec scenario_gift scenario_after_rent)
    = eval view_transactions scenario_after_rent.
Proof.
  split; [reflexivity |]. split.
  - apply (proj1 (listing_grows_by_one_line scenario_after_salary 600 "Rent"
                    "expense") eq_refl).
  - split; [reflexivity |].
    apply (proj2 (listing_grows_by_one_line scenario_after_rent 10 "Gift"
                    "transfer") eq_refl).
Defined.

Lemma ascii_lower_idempotent (c : ascii) :
  Py.ascii_lower (Py.ascii_lower c) = Py.ascii_lower c.
Proof. destruct c as [[] [] [] [] [] [] [] []]; reflexivity. Qed.

Lemma ascii_upper_lower (c : ascii) :
  Py.ascii_upper (Py.ascii_lower c) = Py.ascii_upper c.
Proof. destruct c as [[] [] [] [] [] [] [] []]; reflexivity. Qed.

Lemma lower_idempotent (s : string) : Py.lower (Py.lower s) = Py.lower s.
Proof.
  induction s as [| c r IH]; [reflexivity |].
  cbn [Py.lower]. rewrite ascii_lower_idempotent, IH. reflexivity.
Qed.

Lemma capitalize_lower (s : string) :
  Py.capitalize (Py.lower s) = Py.capitalize s.
Proof.
  destruct s as [| c r]; [reflexivity |].
  cbn [Py.lower Py.capitalize].
  rewrite ascii_upper_lower, lower_idempotent. reflexivity.
Qed.

(** X9.  The listing displays the kind in one spelling: the line of a
    transaction depends on its stored type through the lower-cased type
    only, and reads ["Income"] or ["Expense"] for every accepted type, in
    whatever case it was passed and stored. *)
Theorem displayed_kind_is_normalised :
  forall (idx : Z) (t : Transaction),
    transaction_line idx t =
      transaction_line idx
        {| amount := amount t; category := category t;
           type := Py.lower (type t) |} /\
    (Py.lower (type t) = "income" ->
     transaction_line idx t =
       Py.str_int idx ++ ". Income: $" ++ Py.format_2f (amount t)
         ++ " (" ++ category t ++ ")")%string /\
    (Py.lower (type t) = "expense" ->
     transaction_line idx t =
       Py.str_int idx ++ ". Expense: $" ++ Py.format_2f (amount t)
         ++ " (" ++ category t ++ ")")%string.
Proof.
  intros idx t. unfold transaction_line. cbn [amount category type].
  rewrite capitalize_lower. split; [reflexivity |].
  split; intros H; rewrite <- (capitalize_lower (type t)), H; reflexivity.
Qed.

Lemma displayed_kind_is_normalised_witness :
  Py.lower "eXPENSE" = "expense" /\
  transaction_line 3 {| amount := 12; category := "Tea"; type := "eXPENSE" |}
    = "3. Expense: $12.00 (Tea)".
Proof.
  split; [reflexivity |].
  rewrite (proj2 (proj2 (displayed_kind_is_normalised 3
             {| amount := 12; category := "Tea"; type := "eXPENSE" |}))
             eq_refl).
  reflexivity.
Defined.

(* ------------------------------------------------------------------ *)
(** ** Invariants of the tracker under every method *)

Lemma run_ops_cons (o : Op) (ops : list Op) (w : World) :
  exec (run_ops (o :: ops)) w = exec (run_ops ops) (exec (run_op o) w).
Proof.
  unfold run_ops, exec. cbn [for_each]. unfold bind.
  destruct (run_op o w). reflexivity.
Qed.

(** A property of worlds kept by every call is kept by every sequence of
    calls. *)
Lemma run_ops_invariant (P : World -> Prop) (good : Op -> Prop) :
  (forall o w, good o -> P w -> P (exec (run_op o) w)) ->
  forall ops w, Forall good ops -> P w -> P (exec (run_ops ops) w).
Proof.
  intros Hstep ops. induction ops as [| o r IH]; intros w Hgood Hw.
  - exact Hw.
  - rewrite run_ops_cons. inversion Hgood; subst. apply IH; auto.
Qed.

Lemma view_balance_exec (w : World) : exec view_balance w = w.
Proof. destruct w; reflexivity. Qed.

Lemma view_transactions_exec (w : World) : exec view_transactions w = w.
Proof.
  unfold exec, view_transactions, bind, read_self, ret.
  destruct w as [s sh wc cr]. cbn [self]. destruct (transactions s);
    reflexivity.
Qed.

Lemma run_op_view_balance (w : World) : exec (run_op OpViewBalance) w = w.
Proof. destruct w; reflexivity. Qed.

Lemma run_op_view_transactions (w : World) :
  exec (run_op OpViewTransactions) w = w.
Proof.
  pose proof (view_transactions_exec w) as H.
  unfold exec, run_op, bind, ret in *.
  destruct (view_transactions w) as [s w1]. exact H.
Qed.

Lemma fired_accepted (clock : nat -> datetime) (k : nat)
    (rules : list Recurring) :
  Forall (fun t => accepted (type t) = true) (fired clock k rules).
Proof.
  revert k. induction rules as [| r rest IH]; intros k; [constructor |].
  cbn [fired]. apply Forall_app. split; [| apply IH].
  destruct (due r (clock k)); cbn [andb]; [| constructor].
  destruct (accepted (rec_type r)) eqn:E; constructor; [exact E | constructor].
Qed.

(** X10.  Whatever methods are called on a new tracker, and with whatever
    arguments, every entry of the history has a type that [add_transaction]
    accepts: a rejected type never enters the history, neither directly nor
    through a recurring rule. *)
Theorem history_holds_accepted_types_only :
  forall (ops : list Op) (clock : nat -> datetime) (k : nat),
    Forall (fun t => accepted (type t) = true)
           (transactions (self (exec (run_ops ops) (world_of init clock k)))).
Proof.
  intros ops clock k.
  apply (run_ops_invariant
           (fun w => Forall (fun t => accepted (type t) = true)
                            (transactions (self w)))
           (fun _ => True)).
  - intros o w _ Hw. destruct o as [amt cat ty | amt cat ty freq | | |].
    + destruct (add_transaction_frame amt cat ty w) as (F1 & _).
      cbn [run_op]. rewrite F1. apply Forall_app. split; [exact Hw |].
      destruct (accepted ty) eqn:E; constructor; [exact E | constructor].
    + exact Hw.
    + destruct (pass_spec w) as (_ & F1 & _).
      cbn [run_op]. rewrite F1. apply Forall_app. split; [exact Hw |].
      apply fired_accepted.
    + rewrite run_op_view_balance. exact Hw.
    + rewrite run_op_view_transactions. exact Hw.
  - apply Forall_forall. intros; exact I.
  - constructor.
Qed.

Lemma fold_signed_app (l new : list Transaction) :
  running_total (l ++ new)
    = fold_left (fun b x => (b + signed_amount x)%Q) new (running_total l).
Proof. unfold running_total. apply fold_left_app. Qed.

Lemma run_op_consistent (o : Op) (w : World) :
  consistent (self w) -> consistent (self (exec (run_op o) w)).
Proof.
  intros Hw. destruct o as [amt cat ty | amt cat ty freq | | |].
  - apply add_transaction_consistent. exact Hw.
  - exact Hw.
  - destruct (pass_spec w) as (_ & F1 & F2 & _).
    unfold consistent in *. cbn [run_op].
    rewrite F1, F2, fold_signed_app, Hw. reflexivity.
  - rewrite run_op_view_balance. exact Hw.
  - rewrite run_op_view_transactions. exact Hw.
Qed.

(** X11.  Whatever methods are called on a new tracker, the stored balance
    is the running total of the signed amounts of the history, taken from 0
    in the order of the history: the passes of
    [process_recurring_transactions] keep the balance and the history in
    step as the direct calls of [add_transaction] do. *)
Theorem balance_follows_history_under_every_method :
  forall (ops : list Op) (clock : nat -> datetime) (k : nat),
    let s := self (exec (run_ops ops) (world_of init clock k)) in
    balance s = running_total (transactions s).
Proof.
  intros ops clock k s. unfold s.
  apply (run_ops_invariant (fun w => consistent (self w)) (fun _ => True)).
  - intros o w _. apply run_op_consistent.
  - apply Forall_forall. intros; exact I.
  - reflexivity.
Qed.

(** X12.  No method ever removes or rewrites what is recorded: after any
    sequence of calls the former history is a prefix of the history, the
    former rules are still there in their places with their amount,
    category, type and frequency, and the two thresholds are what they
    were. *)
Theorem nothing_recorded_is_ever_lost :
  forall (ops : list Op) (w : World),
    let w' := exec (run_ops ops) w in
    (exists new, transactions (self w') = transactions (self w) ++ new) /\
    (exists added,
        map template (recurring_transactions (self w'))
          = map template (recurring_transactions (self w)) ++ added) /\
    balance_threshold (self w') = balance_threshold (self w) /\
    large_expense_threshold (self w') = large_expense_threshold (self w).
Proof.
  intros ops. induction ops as [| o r IH]; intros w.
  - cbn. split; [exists []; symmetry; apply app_nil_r |].
    split; [exists []; symmetry; apply app_nil_r | split; reflexivity].
  - cbv zeta. rewrite run_ops_cons.
    destruct (IH (exec (run_op o) w)) as ((n2 & I1) & (a2 & I2) & I3 & I4).
    rewrite I1, I2, I3, I4. clear IH I1 I2 I3 I4.
    assert (S1 : (exists new, transactions (self (exec (run_op o) w))
                              = transactions (self w) ++ new) /\
                 (exists added,
                     map template
                       (recurring_transactions (self (exec (run_op o) w)))
                     = map template (recurring_transactions (self w))
                         ++ added) /\
                 balance_threshold (self (exec (run_op o) w))
                   = balance_threshold (self w) /\
                 large_expense_threshold (self (exec (run_op o) w))
                   = large_expense_threshold (self w)).
    { destruct o as [amt cat ty | amt cat ty freq | | |].
      - destruct (add_transaction_frame amt cat ty w)
          as (F1 & F2 & F3 & F4 & _).
        cbn [run_op]. rewrite F1, F2, F3, F4.
        split; [eexists; reflexivity |].
        split; [exists []; symmetry; apply app_nil_r | split; reflexivity].
      - cbn [run_op]. unfold exec.
        rewrite add_recurring_transaction_run.
        cbn [snd self set_recurring transactions recurring_transactions
             balance_threshold large_expense_threshold].
        split; [exists []; symmetry; apply app_nil_r |].
        split; [| split; reflexivity].
        rewrite map_app. eexists; reflexivity.
      - destruct (pass_spec w) as (G1 & F1 & _ & F3 & F4 & _).
        cbn [run_op]. rewrite F1, G1, advance_template, F3, F4.
        split; [eexists; reflexivity |].
        split; [exists []; symmetry; apply app_nil_r | split; reflexivity].
      - rewrite run_op_view_balance.
        split; [exists []; symmetry; apply app_nil_r |].
        split; [exists []; symmetry; apply app_nil_r | split; reflexivity].
      - rewrite run_op_view_transactions.
        split; [exists []; symmetry; apply app_nil_r |].
        split; [exists []; symmetry; apply app_nil_r | split; reflexivity]. }
    destruct S1 as ((n1 & S1) & (a1 & S2) & S3 & S4).
    rewrite S1, S2, S3, S4, <- !app_assoc.
    split; [eexists; reflexivity |].
    split; [eexists; reflexivity | split; reflexivity].
Qed.

(* ------------------------------------------------------------------ *)
(** ** The cumulative curve and the balance *)

Lemma Qplus_0_l_eq (x : Q) : (0 + x)%Q = x.
Proof.
  destruct x as [n d]. unfold Qplus. cbn [Qnum Qden].
  rewrite Z.mul_1_r. reflexivity.
Qed.

Lemma cumsum_from_zero (l : list Q) : cumsum l = cumsum_from 0 l.
Proof.
  destruct l as [| x r]; [reflexivity |].
  cbn [cumsum cumsum_from]. rewrite Qplus_0_l_eq. reflexivity.
Qed.

Lemma last_cons {A : Type} (l : list A) (a d : A) :
  last (a :: l) d = last l a.
Proof.
  revert a d. induction l as [| b r IH]; intros a d; [reflexivity |].
  change (last (a :: b :: r) d) with (last (b :: r) d).
  rewrite !IH. reflexivity.
Qed.

Lemma cumsum_from_last (l : list Q) (acc : Q) :
  last (cumsum_from acc l) acc = fold_left Qplus l acc.
Proof.
  revert acc. induction l as [| x r IH]; intros acc; [reflexivity |].
  cbn [cumsum_from fold_left]. rewrite last_cons. apply IH.
Qed.

Lemma cumsum_from_length (l : list Q) (acc : Q) :
  List.length (cumsum_from acc l) = List.length l.
Proof.
  revert acc. induction l as [| x r IH]; intros acc; simpl; auto.
Qed.

Lemma cumsum_from_nth (l : list Q) (acc : Q) (j : nat) :
  (j < List.length l)%nat ->
  nth_error (cumsum_from acc l) j = Some (fold_left Qplus (firstn (S j) l) acc).
Proof.
  revert acc j. induction l as [| x r IH]; intros acc j Hj.
  - inversion Hj.
  - destruct j as [| j].
    + destruct r; reflexivity.
    + cbn [cumsum_from nth_error]. rewrite IH by (cbn in Hj; lia).
      reflexivity.
Qed.

Lemma fold_left_map_signed (l : list Transaction) (acc : Q) :
  fold_left Qplus (map signed_amount l) acc
    = fold_left (fun b x => (b + signed_amount x)%Q) l acc.
Proof.
  revert acc. induction l as [| t r IH]; intros acc; [reflexivity |].
  cbn [map fold_left]. apply IH.
Qed.

Lemma advance_lower_case (clock : nat -> datetime) (k : nat)
    (rules : list Recurring) :
  Forall (fun r => Py.lower (rec_type r) = rec_type r) rules ->
  Forall (fun r => Py.lower (rec_type r) = rec_type r)
         (advance clock k rules).
Proof.
  intros H. revert k. induction H as [| r rest Hr _ IH]; intros k.
  - constructor.
  - cbn [advance]. constructor; [| apply IH].
    destruct (due r (clock k)); exact Hr.
Qed.

Lemma fired_lower_case (clock : nat -> datetime) (k : nat)
    (rules : list Recurring) :
  Forall (fun r => Py.lower (rec_type r) = rec_type r) rules ->
  Forall (fun t => Py.lower (type t) = type t) (fired clock k rules).
Proof.
  intros H. revert k. induction H as [| r rest Hr _ IH]; intros k.
  - constructor.
  - cbn [fired]. apply Forall_app. split; [| apply IH].
    destruct (due r (clock k) && accepted (rec_type r));
      constructor; [exact Hr | constructor].
Qed.

Lemma run_op_lower_case (o : Op) (w : World) :
  lower_case_op o ->
  lower_case_state (self w) -> lower_case_state (self (exec (run_op o) w)).
Proof.
  unfold lower_case_state. intros Ho [Ht Hr].
  destruct o as [amt cat ty | amt cat ty freq | | |].
  - destruct (add_transaction_frame amt cat ty w) as (F1 & F2 & _).
    cbn [run_op]. rewrite F1, F2. split; [| exact Hr].
    apply Forall_app. split; [exact Ht |].
    destruct (accepted ty); constructor; [exact Ho | constructor].
  - cbn [run_op]. unfold exec. rewrite add_recurring_transaction_run.
    cbn [snd self set_recurring transactions recurring_transactions].
    split; [exact Ht |]. apply Forall_app. split; [exact Hr |].
    constructor; [exact Ho | constructor].
  - destruct (pass_spec w) as (G1 & F1 & _).
    cbn [run_op]. rewrite F1, G1. split.
    + apply Forall_app. split; [exact Ht | apply fired_lower_case; exact Hr].
    + apply advance_lower_case. exact Hr.
  - rewrite run_op_view_balance. split; assumption.
  - rewrite run_op_view_transactions. split; assumption.
Qed.

(** X13.  When every type is passed in lower case, as the user interface
    passes it, the curve of [visualize_data] follows the ledger: the signed
    column holds the signed amounts, the curve has one point for each
    transaction, its point [j] is the running total of the first [j + 1]
    transactions, and its last point is the stored balance. *)
Theorem curve_ends_at_the_balance :
  forall (ops : list Op) (clock : nat -> datetime) (k : nat),
    Forall lower_case_op ops ->
    let s := self (exec (run_ops ops) (world_of init clock k)) in
    signed_column (transactions s) = map signed_amount (transactions s) /\
    List.length (cumulative_balance (transactions s))
      = List.length (transactions s) /\
    (forall j, (j < List.length (transactions s))%nat ->
       nth_error (cumulative_balance (transactions s)) j
         = Some (running_total (firstn (S j) (transactions s)))) /\
    last (cumulative_balance (transactions s)) 0%Q = balance s.
Proof.
  intros ops clock k Hops s.
  assert (Hstate : lower_case_state s /\ consistent s).
  { unfold s.
    apply (run_ops_invariant
             (fun w => lower_case_state (self w) /\ consistent (self w))
             lower_case_op).
    - intros o w Ho [H1 H2]. split.
      + apply run_op_lower_case; assumption.
      + apply run_op_consistent; assumption.
    - exact Hops.
    - split; [split; constructor | reflexivity]. }
  destruct Hstate as [[Hlow _] Hcons].
  assert (Hcol := signed_column_lower_case (transactions s) Hlow).
  unfold cumulative_balance. rewrite cumsum_from_zero, Hcol.
  split; [reflexivity |].
  split; [rewrite cumsum_from_length; apply length_map |].
  split.
  - intros j Hj. rewrite cumsum_from_nth by (rewrite length_map; exact Hj).
    rewrite firstn_map, fold_left_map_signed. reflexivity.
  - rewrite cumsum_from_last, fold_left_map_signed. symmetry. exact Hcons.
Qed.

Lemma curve_ends_at_the_balance_witness :
  Forall lower_case_op month_of_calls /\
  cumulative_balance
    (transactions (self (exec (run_ops month_of_calls)
                              (frozen_world init))))
    = [ 2000%Q; (2000 + - (80))%Q ] /\
  last (cumulative_balance
          (transactions (self (exec (run_ops month_of_calls)
                                    (frozen_world init))))) 0%Q
    = balance (self (exec (run_ops month_of_calls) (frozen_world init))).
Proof.
  assert (H : Forall lower_case_op month_of_calls)
    by (repeat constructor).
  split; [exact H |]. split; [reflexivity |].
  apply (curve_ends_at_the_balance month_of_calls (fun _ => december_2024) 0%nat H).
Defined.

(** X14.  The signed column of [visualize_data] compares the stored type
    with ["expense"] as it is written, whereas [add_transaction] lower-cases
    it: an expense recorded under a type such as ["Expense"] was subtracted
    from the balance but enters the column, and the curve, with its amount
    unchanged. *)
Theorem curve_ignores_mixed_case_expenses :
  forall (w : World) (amt : Q) (cat ty : string),
    Py.lower ty = "expense" ->
    ty <> "expense" ->
    let w' := exec (add_transaction amt cat ty) w in
    balance (self w') = (balance (self w) - amt)%Q /\
    signed_column (transactions (self w'))
      = signed_column (transactions (self w)) ++ [amt].
Proof.
  intros w amt cat ty Hlow Hne w'. unfold w', exec.
  rewrite (add_transaction_expense _ _ _ _ Hlow).
  cbn [snd self recorded set_transactions set_balance balance transactions].
  split; [reflexivity |].
  unfold signed_column. rewrite map_app. cbn [map type amount].
  destruct (String.eqb_spec ty "expense"); [contradiction | reflexivity].
Qed.

Lemma curve_ignores_mixed_case_expenses_witness :
  Py.lower "Expense" = "expense" /\
  "Expense" <> "expense" /\
  balance (self (exec (add_transaction 600 "Rent" "Expense")
                      scenario_after_salary)) = (50 - 600)%Q /\
  signed_column
    (transactions (self (exec (add_transaction 600 "Rent" "Expense")
                              scenario_after_salary)))
    = [ 50%Q; 600%Q ].
Proof.
  assert (Hne : "Expense" <> "expense") by discriminate.
  split; [reflexivity |]. split; [exact Hne |].
  destruct (curve_ignores_mixed_case_expenses scenario_after_salary 600
              "Rent" "Expense" eq_refl Hne) as [Hb Hc].
  split; [exact Hb | rewrite Hc; reflexivity].
Defined.

(* ------------------------------------------------------------------ *)
(** ** A rule that has just been created *)

(** X15.  [add_recurring_transaction] stores the rule as it is given, with
    any type and any frequency, at the end of the list and with the time
    read as its ["last_added"]; it leaves the balance and the history as
    they were and notifies nothing.  Whatever its frequency, the rule is not
    due at the time of its creation: a visit of it at a reading equal to
    that time changes nothing. *)
Theorem new_rule_is_stored_unchecked_and_waits :
  forall (w : World) (amt : Q) (cat ty freq : string),
    let rule := {| rec_amount := amt; rec_category := cat; rec_type := ty;
                   frequency := freq; last_added := current_time w |} in
    let w1 := exec (add_recurring_transaction amt cat ty freq) w in
    recurring_transactions (self w1)
      = recurring_transactions (self w) ++ [rule] /\
    balance (self w1) = balance (self w) /\
    transactions (self w1) = transactions (self w) /\
    notifications (emitted_by (add_recurring_transaction amt cat ty freq) w)
      = [] /\
    due rule (current_time w) = false /\
    (forall (w2 : World) (i : nat),
        nth_error (recurring_transactions (self w2)) i = Some rule ->
        current_time w2 = current_time w ->
        self (exec (process_rule i) w2) = self w2).
Proof.
  intros w amt cat ty freq rule w1.
  assert (Hdue : due rule (current_time w) = false).
  { apply (due_just_fired rule (current_time w)). }
  unfold w1, exec. rewrite add_recurring_transaction_run.
  cbn [snd self set_recurring recurring_transactions balance transactions].
  split; [reflexivity |]. split; [reflexivity |]. split; [reflexivity |].
  split.
  - rewrite (emitted_by_app _ w
      [ {| effect := StSuccess (recurring_added_message ty amt cat freq);
           at_state := set_recurring
                         (recurring_transactions (self w) ++ [rule])
                         (self w) |} ]); [reflexivity |].
    unfold exec. rewrite add_recurring_transaction_run. reflexivity.
  - split; [exact Hdue |].
    intros w2 i Hr Ht. rewrite (process_rule_run i w2 rule Hr), Ht, Hdue.
    reflexivity.
Qed.

Lemma new_rule_is_stored_unchecked_and_waits_witness :
  nth_error
    (recurring_transactions
       (self (exec (add_recurring_transaction 9 "Music" "Expense" "yearly")
                   (frozen_world init)))) 0
    = Some (mk_recurring 9 "Music" "Expense" "yearly" december_2024) /\
  current_time (exec (add_recurring_transaction 9 "Music" "Expense" "yearly")
                     (frozen_world init))
    = current_time (frozen_world init) /\
  self (exec (process_rule 0)
          (exec (add_recurring_transaction 9 "Music" "Expense" "yearly")
                (frozen_world init)))
    = self (exec (add_recurring_transaction 9 "Music" "Expense" "yearly")
                 (frozen_world init)).
Proof.
  split; [reflexivity |]. split; [reflexivity |].
  apply (proj2 (proj2 (proj2 (proj2 (proj2
           (new_rule_is_stored_unchecked_and_waits (frozen_world init) 9
              "Music" "Expense" "yearly")))))
           (exec (add_recurring_transaction 9 "Music" "Expense" "yearly")
                 (frozen_world init))
           0%nat eq_refl eq_refl).
Defined.
